(** * Sky Metropolis: the building catalog, road topology queries and the
      coordinate hash of the isometric map

    Shallow embedding of [constants.tsx] (the building catalog) and of the
    helpers of the map component ([getHash], [isRoad], [getRoadAxis], the
    intersection test and the per-tile decoration of [IsoMap], the variant
    selection of [ProceduralBuilding] and [Car]).

    JavaScript numbers are IEEE 754 binary64 values; they are modelled by the
    [spec_float] type of the standard library, instantiated at precision 53
    and maximal exponent 1024.  Quantities that the source only ever writes
    as integer literals or array indices (catalog amounts, grid indices) are
    integers of [Z]. *)

From Stdlib Require Import ZArith List Bool Lia String QArith Permutation.
From Stdlib Require Import Floats.SpecFloat.
Import ListNotations.

Local Open Scope Z_scope.

(** ** Building types and the catalog *)

(** [types.ts] declares the enumeration; its ten members are the keys of
    [BUILDINGS] in [constants.tsx]. *)
Module BuildingType.
Inductive t : Set :=
| None | Road | Residential | Commercial | Industrial
| Park | Restaurant | Hotel | Hospital | Airport.

Definition eqb (a b : t) : bool :=
  match a, b with
  | None, None | Road, Road | Residential, Residential
  | Commercial, Commercial | Industrial, Industrial | Park, Park
  | Restaurant, Restaurant | Hotel, Hotel | Hospital, Hospital
  | Airport, Airport => true
  | _, _ => false
  end.

(** The closed set of variants, in declaration order. *)
Definition all : list t :=
  [None; Road; Residential; Commercial; Industrial;
   Park; Restaurant; Hotel; Hospital; Airport].
End BuildingType.

Record BuildingConfig : Set := {
  type : BuildingType.t;
  cost : Z;
  name : string;
  description : string;
  color : string;
  popGen : Z;
  incomeGen : Z
}.

Definition GRID_SIZE : Z := 15.
Definition TICK_RATE_MS : Z := 2000.
Definition INITIAL_MONEY : Z := 1000.

(** The object literal [BUILDINGS], one property per line of the source, in
    source order. *)
Definition BUILDINGS : list (BuildingType.t * BuildingConfig) :=
  [ (BuildingType.None,
     {| type := BuildingType.None; cost := 0; name := "Bulldoze";
        description := "Clear a tile"; color := "#ef4444";
        popGen := 0; incomeGen := 0 |});
    (BuildingType.Road,
     {| type := BuildingType.Road; cost := 10; name := "Road";
        description := "Connects buildings."; color := "#374151";
        popGen := 0; incomeGen := 0 |});
    (BuildingType.Residential,
     {| type := BuildingType.Residential; cost := 100; name := "House";
        description := "+5 Pop/day"; color := "#f87171";
        popGen := 5; incomeGen := 0 |});
    (BuildingType.Commercial,
     {| type := BuildingType.Commercial; cost := 200; name := "Shop";
        description := "+$15/day"; color := "#60a5fa";
        popGen := 0; incomeGen := 15 |});
    (BuildingType.Industrial,
     {| type := BuildingType.Industrial; cost := 400; name := "Factory";
        description := "+$40/day"; color := "#facc15";
        popGen := 0; incomeGen := 40 |});
    (BuildingType.Park,
     {| type := BuildingType.Park; cost := 50; name := "Park";
        description := "Looks nice."; color := "#4ade80";
        popGen := 1; incomeGen := 0 |});
    (BuildingType.Restaurant,
     {| type := BuildingType.Restaurant; cost := 150; name := "Diner";
        description := "+$25/day"; color := "#fb923c";
        popGen := 0; incomeGen := 25 |});
    (BuildingType.Hotel,
     {| type := BuildingType.Hotel; cost := 300; name := "Hotel";
        description := "+$35/day"; color := "#a78bfa";
        popGen := 0; incomeGen := 35 |});
    (BuildingType.Hospital,
     {| type := BuildingType.Hospital; cost := 600; name := "Hospital";
        description := "+10 Pop/day, Costs $20/day"; color := "#f43f5e";
        popGen := 10; incomeGen := -20 |});
    (BuildingType.Airport,
     {| type := BuildingType.Airport; cost := 2000; name := "Airport";
        description := "Unique. +$120/day. Planes!"; color := "#0ea5e9";
        popGen := 15; incomeGen := 120 |}) ].

(** Property access [BUILDINGS[t]]: the value of the first property with
    that key, [undefined] (here [None]) when the object has none. *)
Fixpoint lookup (t : BuildingType.t)
    (table : list (BuildingType.t * BuildingConfig)) : option BuildingConfig :=
  match table with
  | [] => None
  | (k, cfg) :: rest => if BuildingType.eqb t k then Some cfg else lookup t rest
  end.

Definition configFor (t : BuildingType.t) : option BuildingConfig :=
  lookup t BUILDINGS.

(** ** JavaScript numbers *)

Definition prec : Z := 53.
Definition emax : Z := 1024.

Definition number : Set := spec_float.

Definition NaN : number := S754_nan.

(** Integer literals and array indices as numbers (exact below 2^53). *)
Definition of_Z (z : Z) : number := binary_normalize prec emax z 0 false.

(** A decimal literal [n / d]: the binary64 value nearest to the rational,
    obtained as the correctly rounded quotient of two exact integers. *)
Definition decimal (n d : Z) : number := SFdiv prec emax (of_Z n) (of_Z d).

Definition Nmul (a b : number) : number := SFmul prec emax a b.
Definition Nadd (a b : number) : number := SFadd prec emax a b.
Definition Nsub (a b : number) : number := SFsub prec emax a b.
Definition Ndiv (a b : number) : number := SFdiv prec emax a b.
Definition Nlt (a b : number) : bool := SFltb a b.
Definition Ngt (a b : number) : bool := SFltb b a.
(** Strict equality [===] on two numbers. *)
Definition Nseq (a b : number) : bool := SFeqb a b.

(** The remainder operator [n % d] (ECMAScript Number::remainder): the
    result is exact, carries the sign of the dividend, and is NaN for an
    infinite dividend or a zero divisor. *)
Definition Nrem (n d : number) : number :=
  match n, d with
  | S754_nan, _ | _, S754_nan => S754_nan
  | S754_infinity _, _ => S754_nan
  | _, S754_infinity _ => n
  | _, S754_zero _ => S754_nan
  | S754_zero _, _ => n
  | S754_finite sn mn en, S754_finite _ md ed =>
      let ez := Z.min en ed in
      let N := Zpos (fst (shl_align mn en ez)) in
      let D := Zpos (fst (shl_align md ed ez)) in
      binary_normalize prec emax (cond_Zopp sn (Z.rem N D)) ez sn
  end.

Definition Math_abs (x : number) : number := SFabs x.

(** [Math.floor]: the largest integer not above [x]; zeros, infinities and
    NaN are returned unchanged. *)
Definition Math_floor (x : number) : number :=
  match x with
  | S754_finite s m e =>
      binary_normalize prec emax (Z.shiftl (cond_Zopp s (Zpos m)) e) 0 s
  | _ => x
  end.

Definition Math_PI : number := decimal 3141592653589793 1000000000000000.

(** ToBoolean on a number: zeros and NaN are falsy. *)
Definition truthy (x : number) : bool :=
  match x with
  | S754_zero _ | S754_nan => false
  | _ => true
  end.

(** The integer a number denotes when it is integer valued: the key under
    which [arr[v]] looks an element up. *)
Definition integerValue (x : number) : option Z :=
  match x with
  | S754_zero _ => Some 0
  | S754_finite s m e =>
      if 0 <=? e then Some (cond_Zopp s (Zpos m * 2 ^ e))
      else if Zpos m mod 2 ^ (- e) =? 0 then Some (cond_Zopp s (Zpos m / 2 ^ (- e)))
      else None
  | _ => None
  end.

(** The rational a finite number denotes. *)
Definition valueQ (x : number) : option Q :=
  match x with
  | S754_zero _ => Some 0%Q
  | S754_finite s m e =>
      Some (if 0 <=? e then inject_Z (cond_Zopp s (Zpos m * 2 ^ e))
            else Qmake (cond_Zopp s (Zpos m)) (Z.to_pos (2 ^ (- e))))
  | _ => None
  end.

Definition is_finite (x : number) : bool :=
  match x with
  | S754_zero _ | S754_finite _ _ _ => true
  | _ => false
  end.

(** [lo <= x < hi] on the denoted rationals; false of NaN and infinities. *)
Definition inRange (lo hi : Q) (x : number) : Prop :=
  exists q, valueQ x = Some q /\ (lo <= q)%Q /\ (q < hi)%Q.

(** ** Exceptions *)

(** Reading a property of [undefined] throws a [TypeError]; nothing in the
    modelled code catches it. *)
Inductive outcome (A : Type) : Type :=
| Ok (a : A)
| TypeError.
Arguments Ok {A} a.
Arguments TypeError {A}.

Definition bind {A B : Type} (c : outcome A) (k : A -> outcome B) : outcome B :=
  match c with
  | Ok a => k a
  | TypeError => TypeError
  end.

Notation "x <- c ;; k" := (bind c (fun x => k))
  (at level 61, c at next level, right associativity).

(** [deref o]: the object a property is read from must not be [undefined]. *)
Definition deref {A : Type} (o : option A) : outcome A :=
  match o with
  | Some a => Ok a
  | None => TypeError
  end.

(** [sequence]: evaluating the elements of an array literal in order. *)
Fixpoint sequence {A : Type} (l : list (outcome A)) : outcome (list A) :=
  match l with
  | [] => Ok []
  | c :: rest => a <- c ;; r <- sequence rest ;; Ok (a :: r)
  end.

(** ** Tiles and the grid *)

(** [TileData] of [types.ts], restricted to the fields the map reads;
    [constructionTimeLeft] is an optional number. *)
Record TileData : Set := {
  buildingType : BuildingType.t;
  constructionTimeLeft : option number
}.

Definition Grid : Set := list (list TileData).

(** [arr[i]] on an integer index: [undefined] outside [0 .. length - 1]. *)
Definition elem {A : Type} (arr : list A) (i : Z) : option A :=
  if i <? 0 then None else nth_error arr (Z.to_nat i).

Definition len {A : Type} (arr : list A) : Z := Z.of_nat (List.length arr).

(** [arr.map((v, i) => f(v, i))]. *)
Fixpoint mapi_from {A B : Type} (f : A -> Z -> B) (i : Z) (arr : list A) : list B :=
  match arr with
  | [] => []
  | v :: rest => f v i :: mapi_from f (i + 1) rest
  end.

Definition mapi {A B : Type} (f : A -> Z -> B) (arr : list A) : list B :=
  mapi_from f 0 arr.

(** ** Road topology queries *)

Definition isRoad (grid : Grid) (r c : Z) : outcome bool :=
  if (r <? 0) || (r >=? len grid) || (c <? 0) then Ok false
  else
    row0 <- deref (elem grid 0) ;;
    if c >=? len row0 then Ok false
    else
      row <- deref (elem grid r) ;;
      tile <- deref (elem row c) ;;
      Ok (BuildingType.eqb (buildingType tile) BuildingType.Road).

(** The travel axis of a car: ['x'] or ['z']. *)
Inductive Axis : Set := AxisX | AxisZ.

(** [a || b] evaluates [b] only when [a] is false. *)
Definition orElse (a b : outcome bool) : outcome bool :=
  x <- a ;; if x then Ok true else b.

Definition getRoadAxis (grid : Grid) (x y : Z) : outcome Axis :=
  h <- orElse (isRoad grid y (x - 1)) (isRoad grid y (x + 1)) ;;
  v <- orElse (isRoad grid (y - 1) x) (isRoad grid (y + 1) x) ;;
  if v && negb h then Ok AxisZ else Ok AxisX.

(** [(b ? 1 : 0)]. *)
Definition oneIf (b : bool) : Z := if b then 1 else 0.

(** The local [neighbors] of the tile callback of [IsoMap]. *)
Definition neighbors (grid : Grid) (x y : Z) : outcome Z :=
  a <- isRoad grid y (x - 1) ;;
  b <- isRoad grid y (x + 1) ;;
  c <- isRoad grid (y - 1) x ;;
  d <- isRoad grid (y + 1) x ;;
  Ok (oneIf a + oneIf b + oneIf c + oneIf d).

(** The local [isIntersection] of the tile callback: false unless the tile
    is a road, then whether it has at least three road neighbours. *)
Definition isIntersection (grid : Grid) (tile : TileData) (x y : Z) : outcome bool :=
  if BuildingType.eqb (buildingType tile) BuildingType.Road then
    n <- neighbors grid x y ;; Ok (n >=? 3)
  else Ok false.

(** *** The queries as the specification words them *)

(** The tile at column [x] of row [y], when the coordinate is in the grid. *)
Definition tileAt (grid : Grid) (x y : Z) : option TileData :=
  match elem grid y with
  | Some row => elem row x
  | None => None
  end.

(** A coordinate holds a road; off-grid coordinates do not. *)
Definition roadAt (grid : Grid) (x y : Z) : bool :=
  match tileAt grid x y with
  | Some tile => BuildingType.eqb (buildingType tile) BuildingType.Road
  | None => false
  end.

(** The four orthogonally adjacent coordinates: left, right, above, below. *)
Definition neighbors4 (x y : Z) : list (Z * Z) :=
  [(x - 1, y); (x + 1, y); (x, y - 1); (x, y + 1)].

(** [intersectionDegree]: how many orthogonal neighbours are roads. *)
Definition intersectionDegree (grid : Grid) (x y : Z) : Z :=
  len (filter (fun p => roadAt grid (fst p) (snd p)) (neighbors4 x y)).

(** Every row is as long as the first one. *)
Definition rectangular (grid : Grid) : Prop :=
  forall row, In row grid -> List.length row = List.length (hd [] grid).

Definition inBounds (grid : Grid) (r c : Z) : Prop :=
  0 <= r < len grid /\ 0 <= c < len (hd [] grid).

(** ** The coordinate hash and what the renderer derives from it *)

Section Renderer.

(** [Math.sin] is implementation-approximated on finite non-zero
    arguments; the approximation is a parameter of the development. *)
Variable sin_approx : number -> number.

Definition Math_sin (x : number) : number :=
  match x with
  | S754_nan => S754_nan
  | S754_zero _ => x
  | S754_infinity _ => S754_nan
  | S754_finite _ _ _ => sin_approx x
  end.

(** The argument of the sine in [getHash]. *)
Definition hashAngle (x y : number) : number :=
  Nadd (Nmul x (decimal 129898 10000)) (Nmul y (decimal 78233 1000)).

Definition getHash (x y : number) : number :=
  Nrem (Math_abs (Nmul (Math_sin (hashAngle x y)) (decimal 437585453 10000)))
       (of_Z 1).

(** *** [ProceduralBuilding] *)

Definition variant (x y : number) : number :=
  Math_floor (Nmul (getHash x y) (of_Z 100)).

Definition rotation (x y : number) : number :=
  Nmul (Math_floor (Nmul (getHash x y) (of_Z 4))) (Ndiv Math_PI (of_Z 2)).

(** *** [Car] *)

Definition carType (seed : number) : number :=
  Math_floor (Nrem (Nmul seed (of_Z 100)) (of_Z 4)).

(** The variant groups of a car that are rendered: those [k] whose guard
    [carType === k] holds (0 sedan, 1 sports car, 2 pickup truck, 3 van). *)
Definition carVariants (seed : number) : list Z :=
  filter (fun k => Nseq (carType seed) (of_Z k)) [0; 1; 2; 3].

(** The colour array literal of the car. *)
Definition carColors : list string :=
  ["#ef4444"; "#3b82f6"; "#eab308"; "#22c55e"; "#a855f7";
   "#ffffff"; "#1f2937"; "#94a3b8"; "#fb923c"; "#06b6d4"]%string.

(** [arr[v]] with a number as the key. *)
Definition elemAt {A : Type} (arr : list A) (v : number) : option A :=
  match integerValue v with
  | Some i => elem arr i
  | None => None
  end.

Definition carColorIndex (hash : number) : number :=
  Math_floor (Nmul hash (of_Z 10)).

(** *** The scene elements of one tile *)

Inductive Element : Set :=
| TrafficLight
| Car (axis : Axis) (seed : number) (color : option string)
| Person (seed : number)
| ConstructionSite (timeLeft : option number)
| ProceduralBuilding (type : BuildingType.t) (baseColor : string) (x y : Z)
| Cloud (px pz scale : number) (seed : Z).

(** The guard [tile.constructionTimeLeft && tile.constructionTimeLeft > 0]. *)
Definition underConstruction (tile : TileData) : bool :=
  match constructionTimeLeft tile with
  | None => false
  | Some t => truthy t && Ngt t (of_Z 0)
  end.

(** Road content of the tile callback. *)
Definition roadContent (grid : Grid) (tile : TileData) (x y : Z) : outcome (list Element) :=
  let hash := getHash (of_Z x) (of_Z y) in
  crossing <- isIntersection grid tile x y ;;
  if BuildingType.eqb (buildingType tile) BuildingType.Road then
    traffic <-
      (if crossing then Ok [TrafficLight]
       else if Ngt hash (decimal 4 10) then
         axis <- getRoadAxis grid x y ;;
         Ok [Car axis hash (elemAt carColors (carColorIndex hash))]
       else Ok []) ;;
    Ok (traffic ++ (if Nlt hash (decimal 2 10) then [Person hash] else []))
  else Ok [].

(** Building content of the tile callback. *)
Definition buildingContent (tile : TileData) (x y : Z) : outcome (list Element) :=
  let hash := getHash (of_Z x) (of_Z y) in
  let t := buildingType tile in
  if negb (BuildingType.eqb t BuildingType.None)
     && negb (BuildingType.eqb t BuildingType.Road) then
    if underConstruction tile then
      Ok [ConstructionSite (constructionTimeLeft tile)]
    else
      cfg <- deref (configFor t) ;;
      Ok (ProceduralBuilding t (color cfg) x y ::
          (if Ngt hash (decimal 7 10)
              && (BuildingType.eqb t BuildingType.Commercial
                  || BuildingType.eqb t BuildingType.Park
                  || BuildingType.eqb t BuildingType.Restaurant)
           then [Person (Nmul hash (of_Z 2))] else []))
  else Ok [].

Definition renderTile (grid : Grid) (tile : TileData) (x y : Z) : outcome (list Element) :=
  road <- roadContent grid tile x y ;;
  building <- buildingContent tile x y ;;
  Ok (road ++ building).

(** [grid.map((row, y) => row.map((tile, x) => ...))]. *)
Definition renderTiles (grid : Grid) : outcome (list (list (list Element))) :=
  sequence (mapi (fun row y =>
    sequence (mapi (fun tile x => renderTile grid tile x y) row)) grid).

(** *** The cloud layer: the only part of the render that draws random
    numbers *)

(** [Math.random]: successive draws from a source. *)
Record Random : Set := { draws : nat -> number; cursor : nat }.

Definition Math_random (r : Random) : number * Random :=
  (draws r (cursor r), {| draws := draws r; cursor := S (cursor r) |}).

Definition getRandomRange (lo hi : number) (r : Random) : number * Random :=
  let (u, r') := Math_random r in
  (Nadd (Nmul u (Nsub hi lo)) lo, r').

Fixpoint clouds (seeds : list Z) (r : Random) : list Element * Random :=
  match seeds with
  | [] => ([], r)
  | i :: rest =>
      let (px, r1) := getRandomRange (of_Z (-15)) (of_Z 15) r in
      let (pz, r2) := getRandomRange (of_Z (-15)) (of_Z 15) r1 in
      let (sc, r3) := getRandomRange (of_Z 1) (of_Z 2) r2 in
      let (cs, r4) := clouds rest r3 in
      (Cloud px pz sc i :: cs, r4)
  end.

(** One render of [IsoMap]: the cloud layer and the grid tiles. *)
Definition IsoMap (grid : Grid) (r : Random)
    : outcome (list Element * list (list (list Element))) :=
  let (cs, _) := clouds [0; 1; 2; 3; 4; 5] r in
  tiles <- renderTiles grid ;;
  Ok (cs, tiles).

End Renderer.

(** ** The tick engine *)

(** Modelled from the spec: the tick engine of section 4.5 (the game loop
    that advances construction and aggregates population and income is not
    among the sources).  A tile is under construction when its
    [constructionTimeLeft] is present and greater than 0. *)
Definition constructing (tile : TileData) : bool :=
  match constructionTimeLeft tile with
  | None => false
  | Some t => Ngt t (of_Z 0)
  end.

(** Modelled from the spec: step 1 of the tick, on one tile: a positive
    timer is decremented by one unit and cleared when it reaches 0. *)
Definition advanceConstruction (tile : TileData) : TileData :=
  match constructionTimeLeft tile with
  | Some t =>
      if Ngt t (of_Z 0) then
        let t' := Nsub t (of_Z 1) in
        {| buildingType := buildingType tile;
           constructionTimeLeft := if Ngt t' (of_Z 0) then Some t' else None |}
      else tile
  | None => tile
  end.

(** Modelled from the spec: what one tile adds to (population, income) in
    the aggregation step: the catalog amounts of an active building,
    nothing for an empty tile or a building under construction. *)
Definition contribution (tile : TileData) : Z * Z :=
  match buildingType tile with
  | BuildingType.None => (0, 0)
  | t =>
      if constructing tile then (0, 0)
      else match configFor t with
           | Some cfg => (popGen cfg, incomeGen cfg)
           | None => (0, 0)
           end
  end.

(** Modelled from the spec: step 2 of the tick, the sums over all tiles. *)
Definition aggregate (grid : Grid) : Z * Z :=
  fold_left (fun acc tile => (fst acc + fst (contribution tile),
                              snd acc + snd (contribution tile)))
            (List.concat grid) (0, 0).

(** Modelled from the spec: the result of a tick. *)
Record TickResult : Set := {
  newGrid : Grid;
  newTreasury : Z;
  newPopulation : Z;
  totalIncome : Z
}.

(** Modelled from the spec: [tick]: construction advances first, then the
    aggregation runs on the advanced grid, then the income is applied to
    the treasury and the population is replaced. *)
Definition tick (grid : Grid) (treasury : Z) : TickResult :=
  let grid' := map (map advanceConstruction) grid in
  let (pop, income) := aggregate grid' in
  {| newGrid := grid'; newTreasury := treasury + income;
     newPopulation := pop; totalIncome := income |}.

(** ** Ranges of numbers *)

(** [below K h]: [h] is a non-negative binary64 number smaller than the
    integer [K]: the zero, or a positive finite number whose mantissa has at
    most 53 binary digits and whose exponent is at least -1074.  Every finite
    binary64 number is an integer multiple of 2^-1074, and the comparison is
    made on these multiples. *)
Definition below (K : Z) (h : number) : Prop :=
  match h with
  | S754_zero false => True
  | S754_finite false m e =>
      Zpos m < 2 ^ 53 /\ -1074 <= e /\ Zpos m * 2 ^ (e + 1074) < K * 2 ^ 1074
  | _ => False
  end.

(** The assumption on the sine: on a finite argument it returns a finite
    number between -1 and 1. *)
Definition sin_bounded (sin_approx : number -> number) : Prop :=
  forall a, is_finite a = true ->
    exists q, valueQ (sin_approx a) = Some q /\ (-1 <= q)%Q /\ (q <= 1)%Q.

(** A stand-in for the sine that meets [sin_bounded]: the argument clamped
    to [[-1, 1]].  It only serves to instantiate the statements that assume
    [sin_bounded]. *)
Definition sin_clamp (a : number) : number :=
  match a with
  | S754_finite s m e =>
      if (if 0 <=? e then Zpos m * 2 ^ e <=? 1 else Zpos m <=? 2 ^ (- e))
      then a else S754_finite s 4503599627370496 (-52)
  | _ => a
  end.

(** The four quarter turns [0], [Math.PI / 2], [Math.PI], [3 * Math.PI / 2]. *)
Definition quarterTurns : list number :=
  [of_Z 0; Ndiv Math_PI (of_Z 2); Math_PI; Ndiv (Nmul (of_Z 3) Math_PI) (of_Z 2)].

(** The sum of a list of integers. *)
Definition sumZ (l : list Z) : Z := fold_right Z.add 0 l.

(** ** Sample data *)

Definition roadTile : TileData :=
  {| buildingType := BuildingType.Road; constructionTimeLeft := None |}.

Definition emptyTile : TileData :=
  {| buildingType := BuildingType.None; constructionTimeLeft := None |}.

(** A crossroads: the centre tile has a road on each of its four sides. *)
Definition crossroads : Grid :=
  [ [emptyTile; roadTile; emptyTile];
    [roadTile;  roadTile; roadTile];
    [emptyTile; roadTile; emptyTile] ].

(** A shop and a hospital in service, a house still being built, a road. *)
Definition smallTown : Grid :=
  [ [ {| buildingType := BuildingType.Commercial; constructionTimeLeft := None |};
      roadTile ];
    [ {| buildingType := BuildingType.Residential;
         constructionTimeLeft := Some (of_Z 3) |};
      {| buildingType := BuildingType.Hospital;
         constructionTimeLeft := Some (of_Z 0) |} ] ].

(** ** Further components of the map *)

(** *** World coordinates *)

(** [WORLD_OFFSET = GRID_SIZE / 2 - 0.5]. *)
Definition WORLD_OFFSET : number :=
  Nsub (Ndiv (of_Z GRID_SIZE) (of_Z 2)) (decimal 5 10).

Definition gridToWorld (x y : number) : number * number * number :=
  (Nsub x WORLD_OFFSET, of_Z 0, Nsub y WORLD_OFFSET).

(** *** [Person] *)

(** The shirt colour of a pedestrian (the body mesh). *)
Definition shirtColor (seed : number) : string :=
  if Ngt seed (decimal 5 10) then "#f87171" else "#60a5fa".

(** *** [TrafficLight] *)

(** The light types ['r'], ['y'], ['g']. *)
Inductive LightType : Set := LightR | LightY | LightG.

(** The phase computed by the frame callback from the elapsed time:
    0 NS green, 1 NS yellow, 2 EW green, 3 EW yellow. *)
Definition newState (elapsed : number) : Z :=
  let t := Nrem elapsed (of_Z 12) in
  if Nlt t (of_Z 5) then 0
  else if Nlt t (of_Z 6) then 1
  else if Nlt t (of_Z 11) then 2
  else 3.

Definition getNSColor (state : Z) (lightType : LightType) : string :=
  match lightType with
  | LightR => if (state =? 2) || (state =? 3) then "#ef4444" else "#374151"
  | LightY => if state =? 1 then "#eab308" else "#374151"
  | LightG => if state =? 0 then "#22c55e" else "#374151"
  end.

Definition getEWColor (state : Z) (lightType : LightType) : string :=
  match lightType with
  | LightR => if (state =? 0) || (state =? 1) then "#ef4444" else "#374151"
  | LightY => if state =? 3 then "#eab308" else "#374151"
  | LightG => if state =? 2 then "#22c55e" else "#374151"
  end.

(** The component state: the [lastState] ref and the [state] hook. *)
Record TrafficLightState : Set := { lastState : Z; state : Z }.

(** [useState(0)] and [useRef(0)]. *)
Definition trafficLightInit : TrafficLightState := {| lastState := 0; state := 0 |}.

(** One run of the frame callback: the state is set only when the phase
    differs from the last one recorded. *)
Definition trafficLightFrame (s : TrafficLightState) (elapsed : number)
    : TrafficLightState :=
  let n := newState elapsed in
  if negb (n =? lastState s) then {| lastState := n; state := n |} else s.

(** The colours [colors[0]], [colors[1]], [colors[2]] handed to a light
    face: red, yellow, green. *)
Definition faceColors (color : LightType -> string) : list string :=
  [color LightR; color LightY; color LightG].

(** A lamp is dark when it has the housing grey. *)
Definition lit (c : string) : bool := negb (String.eqb c "#374151").

(** *** The styles of [ProceduralBuilding] *)

(** One constructor per fragment the [switch] returns, named after the
    comment on it. *)
Inductive Style : Set :=
| CozyCottage | ModernBoxy | Townhouse | ApartmentComplex | LargeEstate
| HighRise | Shop | CornerStore | TwinTowers | ShoppingPlaza
| Factory | Warehouse | ChemicalPlant
| Diner | HotelTower | HospitalBlock | AirportTerminal | ParkTrees.

(** The [switch (type)] of [ProceduralBuilding]; [None] is the [null] of
    its default case. *)
Definition buildingStyle (type : BuildingType.t) (variant : number) : option Style :=
  match type with
  | BuildingType.Residential =>
      Some (if Nlt variant (of_Z 20) then CozyCottage
            else if Nlt variant (of_Z 40) then ModernBoxy
            else if Nlt variant (of_Z 60) then Townhouse
            else if Nlt variant (of_Z 80) then ApartmentComplex
            else LargeEstate)
  | BuildingType.Commercial =>
      Some (if Nlt variant (of_Z 20) then HighRise
            else if Nlt variant (of_Z 40) then Shop
            else if Nlt variant (of_Z 60) then CornerStore
            else if Nlt variant (of_Z 80) then TwinTowers
            else ShoppingPlaza)
  | BuildingType.Industrial =>
      Some (if Nlt variant (of_Z 33) then Factory
            else if Nlt variant (of_Z 66) then Warehouse
            else ChemicalPlant)
  | BuildingType.Restaurant => Some Diner
  | BuildingType.Hotel => Some HotelTower
  | BuildingType.Hospital => Some HospitalBlock
  | BuildingType.Airport => Some AirportTerminal
  | BuildingType.Park => Some ParkTrees
  | BuildingType.Road | BuildingType.None => None
  end.

(** The styles that mount a [SmokeStack], the one child of a building that
    calls [Math.random]. *)
Definition hasSmokeStack (st : Style) : bool :=
  match st with
  | Factory | ChemicalPlant => true
  | _ => false
  end.

(** A ragged grid: the second row is shorter than the first. *)
Definition raggedGrid : Grid := [ [roadTile; roadTile]; [roadTile] ].

(** ** Proof automation *)

(** Powers of two with an exponent that linear arithmetic shows to be
    non-negative are positive. *)
Ltac pow2_pos := apply Z.pow_pos_nonneg; lia.

(** Splitting a power of two: [2 ^ c = 2 ^ a * 2 ^ b] when [c = a + b] with
    non-negative [a] and [b]. *)
Ltac pow2_split := rewrite <- !Z.pow_add_r by lia; f_equal; lia.

(** * Properties *)

(** ** The catalog *)

Lemma BuildingType_eqb_eq (a b : BuildingType.t) :
  BuildingType.eqb a b = true <-> a = b.
Proof. destruct a, b; simpl; split; congruence. Qed.

Lemma BuildingType_eqb_refl (a : BuildingType.t) : BuildingType.eqb a a = true.
Proof. now destruct a. Qed.

Lemma BuildingType_all_complete (a : BuildingType.t) : In a BuildingType.all.
Proof. destruct a; simpl; tauto. Qed.

Lemma configFor_defined (t : BuildingType.t) :
  exists cfg, configFor t = Some cfg /\ type cfg = t.
Proof. destruct t; eexists; split; reflexivity. Qed.

(** C2, as amended.  [BUILDINGS] has an entry for every building type, and the
    entry is the one of that type; the entry of [None] has cost, popGen and
    incomeGen 0; the entry of [Road] has popGen and incomeGen 0 and the
    nonzero cost 10. *)
Theorem catalog_total_none_road :
  (forall t, exists cfg, configFor t = Some cfg /\ type cfg = t) /\
  (forall t, In t (map fst BUILDINGS) <-> In t BuildingType.all) /\
  (exists cfg, configFor BuildingType.None = Some cfg /\
               cost cfg = 0 /\ popGen cfg = 0 /\ incomeGen cfg = 0) /\
  (exists cfg, configFor BuildingType.Road = Some cfg /\
               cost cfg = 10 /\ cost cfg <> 0 /\
               popGen cfg = 0 /\ incomeGen cfg = 0).
Proof.
  split; [exact configFor_defined|].
  split; [intro t; split; intros _; [apply BuildingType_all_complete|
                                     destruct t; simpl; tauto]|].
  split; eexists; (split; [reflexivity|]); simpl; repeat split; lia.
Qed.

(** C2, as stated, fails: it is not the case that the entries of [None] and
    [Road] both have cost, popGen and incomeGen 0 (the cost of [Road] is 10). *)
Lemma catalog_road_cost_counterexample :
  ~ (forall t, t = BuildingType.None \/ t = BuildingType.Road ->
       exists cfg, configFor t = Some cfg /\
                   cost cfg = 0 /\ popGen cfg = 0 /\ incomeGen cfg = 0).
Proof.
  intros H. destruct (H BuildingType.Road (or_intror eq_refl)) as (cfg & Hc & H0 & _).
  unfold configFor in Hc; simpl in Hc. injection Hc as <-. simpl in H0. discriminate.
Qed.

(** ** Array access *)

Lemma elem_Some_bounds {A : Type} (arr : list A) (i : Z) (a : A) :
  elem arr i = Some a -> 0 <= i < len arr.
Proof.
  unfold elem, len. destruct (Z.ltb_spec i 0) as [Hi|Hi]; [discriminate|].
  intros H. assert (Hn : nth_error arr (Z.to_nat i) <> None) by congruence.
  apply nth_error_Some in Hn. lia.
Qed.

Lemma elem_in_bounds {A : Type} (arr : list A) (i : Z) :
  0 <= i < len arr -> exists a, elem arr i = Some a /\ In a arr.
Proof.
  unfold elem, len. intros [H0 H1]. destruct (Z.ltb_spec i 0) as [Hi|Hi]; [lia|].
  destruct (nth_error arr (Z.to_nat i)) eqn:E.
  - exists a. split; [reflexivity|]. eapply nth_error_In; eassumption.
  - apply nth_error_None in E. lia.
Qed.

Lemma elem_out_of_bounds {A : Type} (arr : list A) (i : Z) :
  ~ (0 <= i < len arr) -> elem arr i = None.
Proof.
  intros H. destruct (elem arr i) eqn:E; [|reflexivity].
  apply elem_Some_bounds in E. contradiction.
Qed.

Lemma elem_zero_hd {A : Type} (arr : list (list A)) (row : list A) :
  elem arr 0 = Some row -> hd [] arr = row.
Proof. destruct arr; simpl; unfold elem; simpl; congruence. Qed.

Lemma rectangular_len (grid : Grid) (row : list TileData) :
  rectangular grid -> In row grid -> len row = len (hd [] grid).
Proof. intros R H. unfold len. now rewrite (R row H). Qed.

(** ** [isRoad] *)

(** On a rectangular grid [isRoad] never throws and agrees with the lookup
    of the tile at that coordinate. *)
Lemma isRoad_roadAt (grid : Grid) (r c : Z) :
  rectangular grid -> isRoad grid r c = Ok (roadAt grid c r).
Proof.
  intros R. unfold isRoad, roadAt, tileAt.
  destruct (Z.ltb_spec r 0) as [Hr0|Hr0]; simpl.
  { now rewrite (elem_out_of_bounds grid r) by lia. }
  destruct (Z.geb_spec r (len grid)) as [Hr1|Hr1]; simpl.
  { now rewrite (elem_out_of_bounds grid r) by lia. }
  destruct (Z.ltb_spec c 0) as [Hc0|Hc0]; simpl.
  { destruct (elem grid r); [|reflexivity].
    now rewrite (elem_out_of_bounds l c) by lia. }
  destruct (elem_in_bounds grid 0) as (row0 & E0 & _); [lia|].
  destruct (elem_in_bounds grid r) as (row & Er & Hin); [lia|].
  rewrite E0, Er; simpl.
  pose proof (elem_zero_hd _ _ E0) as Hhd.
  pose proof (rectangular_len grid row R Hin) as Hlen. rewrite Hhd in Hlen.
  destruct (Z.geb_spec c (len row0)) as [Hc1|Hc1].
  { now rewrite (elem_out_of_bounds row c) by lia. }
  destruct (elem_in_bounds row c) as (tile & Et & _); [lia|].
  now rewrite Et.
Qed.

Lemma tileAt_inBounds (grid : Grid) (r c : Z) :
  rectangular grid -> inBounds grid r c -> exists tile, tileAt grid c r = Some tile.
Proof.
  intros R [Hr Hc]. unfold tileAt.
  destruct (elem_in_bounds grid r Hr) as (row & Er & Hin). rewrite Er.
  destruct (elem_in_bounds row c) as (tile & Et & _).
  - now rewrite (rectangular_len grid row R Hin).
  - now exists tile.
Qed.

Lemma tileAt_outOfBounds (grid : Grid) (r c : Z) :
  rectangular grid -> ~ inBounds grid r c -> tileAt grid c r = None.
Proof.
  intros R H. unfold tileAt. destruct (elem grid r) as [row|] eqn:Er; [|reflexivity].
  destruct (elem row c) as [tile|] eqn:Et; [|reflexivity].
  exfalso. apply H. pose proof (elem_Some_bounds _ _ _ Er) as Hr.
  pose proof (elem_Some_bounds _ _ _ Et) as Hc.
  destruct (elem_in_bounds grid r Hr) as (row' & Er' & Hin).
  assert (row' = row) by congruence. subst row'.
  rewrite (rectangular_len grid row R Hin) in Hc. now split.
Qed.

(** C5.  On a rectangular non-empty grid [isRoad] returns normally for every
    integer pair: [false] when the pair is out of bounds, and when it is in
    bounds, [true] exactly when the tile there has building type [Road]. *)
Theorem isRoad_total (grid : Grid) (r c : Z) :
  rectangular grid -> grid <> [] ->
  (exists b, isRoad grid r c = Ok b) /\
  (~ inBounds grid r c -> isRoad grid r c = Ok false) /\
  (inBounds grid r c ->
     exists tile b, tileAt grid c r = Some tile /\ isRoad grid r c = Ok b /\
       (b = true <-> buildingType tile = BuildingType.Road)).
Proof.
  intros R _. rewrite (isRoad_roadAt grid r c R). split; [eauto|]. split.
  - intros H. unfold roadAt. now rewrite (tileAt_outOfBounds grid r c R H).
  - intros H. destruct (tileAt_inBounds grid r c R H) as (tile & Et).
    exists tile, (BuildingType.eqb (buildingType tile) BuildingType.Road).
    split; [assumption|]. split.
    + unfold roadAt. now rewrite Et.
    + apply BuildingType_eqb_eq.
Qed.

Lemma crossroads_rectangular : rectangular crossroads.
Proof. intros row [<-|[<-|[<-|[]]]]; reflexivity. Qed.

Lemma isRoad_total_witness :
  rectangular crossroads /\ crossroads <> [] /\
  isRoad crossroads 1 1 = Ok true /\ isRoad crossroads 0 0 = Ok false /\
  isRoad crossroads (-1) 1 = Ok false /\ isRoad crossroads 1 3 = Ok false.
Proof.
  assert (Hne : crossroads <> []) by discriminate.
  split; [exact crossroads_rectangular|]. split; [exact Hne|].
  pose proof (isRoad_total crossroads (-1) 1 crossroads_rectangular Hne) as (_ & Hout & _).
  split; [reflexivity|]. split; [reflexivity|].
  split; [apply Hout; unfold inBounds; lia|reflexivity].
Defined.


(** ** Intersections and the traffic axis *)

Lemma neighbors_roadAt (grid : Grid) (x y : Z) :
  rectangular grid ->
  neighbors grid x y =
    Ok (oneIf (roadAt grid (x - 1) y) + oneIf (roadAt grid (x + 1) y)
        + oneIf (roadAt grid x (y - 1)) + oneIf (roadAt grid x (y + 1))).
Proof. intros R. unfold neighbors. now rewrite !isRoad_roadAt by assumption. Qed.

Lemma intersectionDegree_sum (grid : Grid) (x y : Z) :
  intersectionDegree grid x y =
    oneIf (roadAt grid (x - 1) y) + oneIf (roadAt grid (x + 1) y)
    + oneIf (roadAt grid x (y - 1)) + oneIf (roadAt grid x (y + 1)).
Proof.
  unfold intersectionDegree, neighbors4; simpl.
  destruct (roadAt grid (x - 1) y), (roadAt grid (x + 1) y),
           (roadAt grid x (y - 1)), (roadAt grid x (y + 1)); reflexivity.
Qed.

(** C3.  For a road tile at an in-grid coordinate, the neighbour count of the
    tile callback is the number of orthogonal neighbours that are roads, and
    the tile is an intersection exactly when that number is at least 3: with
    four road neighbours the degree is 4 and the tile is an intersection,
    with exactly two opposite road neighbours it is not. *)
Theorem intersection_degree (grid : Grid) (tile : TileData) (x y : Z) :
  rectangular grid ->
  tileAt grid x y = Some tile ->
  buildingType tile = BuildingType.Road ->
  neighbors grid x y = Ok (intersectionDegree grid x y) /\
  (exists b, isIntersection grid tile x y = Ok b /\
             (b = true <-> 3 <= intersectionDegree grid x y)) /\
  (roadAt grid (x - 1) y = true -> roadAt grid (x + 1) y = true ->
   roadAt grid x (y - 1) = true -> roadAt grid x (y + 1) = true ->
   intersectionDegree grid x y = 4 /\ isIntersection grid tile x y = Ok true) /\
  ((roadAt grid (x - 1) y = true /\ roadAt grid (x + 1) y = true /\
    roadAt grid x (y - 1) = false /\ roadAt grid x (y + 1) = false) \/
   (roadAt grid (x - 1) y = false /\ roadAt grid (x + 1) y = false /\
    roadAt grid x (y - 1) = true /\ roadAt grid x (y + 1) = true) ->
   intersectionDegree grid x y = 2 /\ isIntersection grid tile x y = Ok false).
Proof.
  intros R _ Hroad.
  assert (Hint : isIntersection grid tile x y = Ok (intersectionDegree grid x y >=? 3)).
  { unfold isIntersection. rewrite Hroad; simpl.
    rewrite (neighbors_roadAt grid x y R), <- intersectionDegree_sum. reflexivity. }
  split; [rewrite intersectionDegree_sum; now apply neighbors_roadAt|].
  split.
  { eexists; split; [exact Hint|]. rewrite Z.geb_leb. apply Z.leb_le. }
  rewrite Hint, intersectionDegree_sum. split.
  - intros -> -> -> ->. now split.
  - intros [(-> & -> & -> & ->)|(-> & -> & -> & ->)]; now split.
Qed.

Lemma intersection_degree_witness :
  rectangular crossroads /\ tileAt crossroads 1 1 = Some roadTile /\
  neighbors crossroads 1 1 = Ok (intersectionDegree crossroads 1 1) /\
  intersectionDegree crossroads 1 1 = 4 /\
  isIntersection crossroads roadTile 1 1 = Ok true.
Proof.
  split; [exact crossroads_rectangular|]. split; [reflexivity|].
  destruct (intersection_degree crossroads roadTile 1 1 crossroads_rectangular
              eq_refl eq_refl) as (Hn & _ & Hfour & _).
  split; [exact Hn|]. apply Hfour; reflexivity.
Defined.


Lemma orElse_Ok (a b : bool) : orElse (Ok a) (Ok b) = Ok (a || b).
Proof. now destruct a. Qed.

Lemma getRoadAxis_roadAt (grid : Grid) (x y : Z) :
  rectangular grid ->
  getRoadAxis grid x y =
    Ok (if (roadAt grid x (y - 1) || roadAt grid x (y + 1))
           && negb (roadAt grid (x - 1) y || roadAt grid (x + 1) y)
        then AxisZ else AxisX).
Proof.
  intros R. unfold getRoadAxis. rewrite !isRoad_roadAt by assumption.
  rewrite !orElse_Ok. simpl.
  now destruct ((roadAt grid x (y - 1) || roadAt grid x (y + 1))
                && negb (roadAt grid (x - 1) y || roadAt grid (x + 1) y)).
Qed.

(** C4.  On every (rectangular) grid and at every coordinate, [getRoadAxis]
    returns ['z'] exactly when the tile above or the tile below is a road and
    neither the tile to the left nor the tile to the right is one; otherwise,
    also when roads lie on both axes or on none, it returns ['x']. *)
Theorem getRoadAxis_policy (grid : Grid) (x y : Z) :
  rectangular grid ->
  exists a, getRoadAxis grid x y = Ok a /\
    (a = AxisZ <->
       (roadAt grid x (y - 1) = true \/ roadAt grid x (y + 1) = true) /\
       roadAt grid (x - 1) y = false /\ roadAt grid (x + 1) y = false) /\
    (a = AxisX <->
       ~ ((roadAt grid x (y - 1) = true \/ roadAt grid x (y + 1) = true) /\
          roadAt grid (x - 1) y = false /\ roadAt grid (x + 1) y = false)) /\
    ((roadAt grid (x - 1) y = true \/ roadAt grid (x + 1) y = true) ->
     a = AxisX) /\
    (roadAt grid x (y - 1) = false -> roadAt grid x (y + 1) = false ->
     a = AxisX).
Proof.
  intros R. rewrite (getRoadAxis_roadAt grid x y R). eexists; split; [reflexivity|].
  destruct (roadAt grid x (y - 1)), (roadAt grid x (y + 1)),
           (roadAt grid (x - 1) y), (roadAt grid (x + 1) y); simpl;
    repeat split; try congruence; try tauto;
    try (intros; intuition congruence).
Qed.

Lemma getRoadAxis_policy_witness :
  rectangular crossroads /\
  exists a, getRoadAxis crossroads 1 0 = Ok a /\
    (a = AxisZ <->
       (roadAt crossroads 1 (0 - 1) = true \/ roadAt crossroads 1 (0 + 1) = true) /\
       roadAt crossroads (1 - 1) 0 = false /\ roadAt crossroads (1 + 1) 0 = false).
Proof.
  split; [exact crossroads_rectangular|].
  destruct (getRoadAxis_policy crossroads 1 0 crossroads_rectangular) as (a & Ha & Hz & _).
  exists a. split; assumption.
Defined.


(** ** Construction and the tick *)

Lemma of_Z_0 : of_Z 0 = S754_zero false.
Proof. reflexivity. Qed.

(** [t > 0] holds of the positive finite numbers and of +Infinity only. *)
Lemma Ngt_zero (t : number) :
  Ngt t (of_Z 0) = true <->
  (exists m e, t = S754_finite false m e) \/ t = S754_infinity false.
Proof.
  rewrite of_Z_0. unfold Ngt, SFltb.
  destruct t as [s|s| |s m e]; try destruct s; simpl; split;
    try discriminate; try (intros [(m' & e' & H)|H]; discriminate);
    try reflexivity; eauto.
Qed.

Lemma underConstruction_constructing (tile : TileData) :
  underConstruction tile = constructing tile.
Proof.
  unfold underConstruction, constructing.
  destruct (constructionTimeLeft tile) as [t|]; [|reflexivity].
  rewrite of_Z_0. destruct t as [s|s| |s m e]; try destruct s; reflexivity.
Qed.

Lemma advanceConstruction_type (tile : TileData) :
  buildingType (advanceConstruction tile) = buildingType tile.
Proof.
  unfold advanceConstruction. destruct (constructionTimeLeft tile) as [t|]; [|reflexivity].
  now destruct (Ngt t (of_Z 0)).
Qed.

Lemma advanceConstruction_active (tile : TileData) :
  constructing tile = false -> advanceConstruction tile = tile.
Proof.
  unfold advanceConstruction, constructing.
  destruct (constructionTimeLeft tile) as [t|]; [|reflexivity]. now intros ->.
Qed.

Lemma fold_contribution (l : list TileData) (p i : Z) :
  fold_left (fun acc tile => (fst acc + fst (contribution tile),
                              snd acc + snd (contribution tile))) l (p, i)
  = (p + sumZ (map (fun t => fst (contribution t)) l),
     i + sumZ (map (fun t => snd (contribution t)) l)).
Proof.
  revert p i. induction l as [|t l IH]; intros p i; simpl.
  - f_equal; lia.
  - rewrite IH. f_equal; lia.
Qed.

Lemma aggregate_sums (grid : Grid) :
  aggregate grid = (sumZ (map (fun t => fst (contribution t)) (List.concat grid)),
                    sumZ (map (fun t => snd (contribution t)) (List.concat grid))).
Proof. unfold aggregate. now rewrite fold_contribution. Qed.

Lemma sumZ_Permutation (l l' : list Z) : Permutation l l' -> sumZ l = sumZ l'.
Proof. induction 1; simpl; lia. Qed.

Lemma sumZ_zero (A : Type) (f : A -> Z) (l : list A) :
  Forall (fun a => f a = 0) l -> sumZ (map f l) = 0.
Proof. induction 1 as [|a l Ha _ IH]; simpl; lia. Qed.

Lemma concat_map_map (grid : Grid) (f : TileData -> TileData) :
  List.concat (map (map f) grid) = map f (List.concat grid).
Proof.
  induction grid as [|row grid IH]; simpl; [reflexivity|].
  now rewrite IH, map_app.
Qed.

Lemma totalIncome_tick (grid : Grid) (treasury : Z) :
  totalIncome (tick grid treasury)
  = sumZ (map (fun t => snd (contribution (advanceConstruction t))) (List.concat grid)) /\
  newTreasury (tick grid treasury) = treasury + totalIncome (tick grid treasury).
Proof.
  unfold tick. rewrite aggregate_sums; simpl.
  rewrite concat_map_map, map_map. split; reflexivity.
Qed.

(** C6.  When the grid holds one active Commercial building and one active
    Hospital, and every other tile is empty, a road, or a building that is
    still under construction after this tick's countdown, the aggregation of
    the tick yields a total income of 15 + (-20) = -5. *)
Theorem tick_income_commercial_hospital
    (grid : Grid) (treasury : Z) (shop clinic : TileData) (others : list TileData) :
  Permutation (List.concat grid) (shop :: clinic :: others) ->
  buildingType shop = BuildingType.Commercial -> constructing shop = false ->
  buildingType clinic = BuildingType.Hospital -> constructing clinic = false ->
  Forall (fun t => buildingType t = BuildingType.None \/
                   buildingType t = BuildingType.Road \/
                   constructing (advanceConstruction t) = true) others ->
  (exists cfg, configFor BuildingType.Commercial = Some cfg /\ incomeGen cfg = 15) /\
  (exists cfg, configFor BuildingType.Hospital = Some cfg /\ incomeGen cfg = -20) /\
  totalIncome (tick grid treasury) = -5 /\
  newTreasury (tick grid treasury) = treasury - 5.
Proof.
  intros Hperm Hs Hsa Hc Hca Hothers.
  split; [eexists; split; reflexivity|]. split; [eexists; split; reflexivity|].
  destruct (totalIncome_tick grid treasury) as [Hinc Htre].
  assert (H5 : totalIncome (tick grid treasury) = -5).
  { rewrite Hinc.
    rewrite (sumZ_Permutation _ _ (Permutation_map _ Hperm)). simpl.
    rewrite (advanceConstruction_active shop Hsa), (advanceConstruction_active clinic Hca).
    unfold contribution at 1 2. rewrite Hs, Hc, Hsa, Hca; simpl.
    rewrite sumZ_zero; [reflexivity|].
    eapply Forall_impl; [|exact Hothers]. intros t Ht.
    unfold contribution. rewrite advanceConstruction_type.
    destruct Ht as [-> | [-> | ->]]; [reflexivity| |].
    - now destruct (constructing (advanceConstruction t)).
    - now destruct (buildingType t). }
  split; [exact H5|]. rewrite Htre, H5. lia.
Qed.

Lemma tick_income_commercial_hospital_witness :
  totalIncome (tick smallTown INITIAL_MONEY) = -5 /\
  newTreasury (tick smallTown INITIAL_MONEY) = INITIAL_MONEY - 5.
Proof.
  pose (shop := {| buildingType := BuildingType.Commercial;
                   constructionTimeLeft := None |}).
  pose (clinic := {| buildingType := BuildingType.Hospital;
                     constructionTimeLeft := Some (of_Z 0) |}).
  pose (house := {| buildingType := BuildingType.Residential;
                    constructionTimeLeft := Some (of_Z 3) |}).
  destruct (tick_income_commercial_hospital smallTown INITIAL_MONEY
              shop clinic [roadTile; house]) as (_ & _ & Hincome & Htreasury).
  - change (List.concat smallTown) with (shop :: [roadTile; house] ++ [clinic]).
    apply perm_skip. apply Permutation_sym, Permutation_cons_append.
  - reflexivity.
  - reflexivity.
  - reflexivity.
  - reflexivity.
  - constructor; [right; left; reflexivity|].
    constructor; [right; right; reflexivity|constructor].
  - split; assumption.
Defined.


(** C7.  A tile whose building is neither [None] nor [Road] is under
    construction exactly when [constructionTimeLeft] is present and greater
    than 0: it then contributes no population and no income and is drawn as a
    construction site; otherwise (timer absent or 0) it is active: it
    contributes the catalog amounts and is drawn as the finished building. *)
Theorem construction_gating
    (sin_approx : number -> number) (tile : TileData) (x y : Z) :
  buildingType tile <> BuildingType.None ->
  buildingType tile <> BuildingType.Road ->
  (underConstruction tile = true <->
     exists t, constructionTimeLeft tile = Some t /\ Ngt t (of_Z 0) = true) /\
  (constructionTimeLeft tile = None \/
   (exists s, constructionTimeLeft tile = Some (S754_zero s)) ->
   underConstruction tile = false) /\
  (underConstruction tile = true ->
     contribution tile = (0, 0) /\
     exists t, constructionTimeLeft tile = Some t /\
       buildingContent sin_approx tile x y = Ok [ConstructionSite (Some t)]) /\
  (underConstruction tile = false ->
     exists cfg people,
       configFor (buildingType tile) = Some cfg /\
       contribution tile = (popGen cfg, incomeGen cfg) /\
       buildingContent sin_approx tile x y
         = Ok (ProceduralBuilding (buildingType tile) (color cfg) x y :: people) /\
       Forall (fun e => exists seed, e = Person seed) people).
Proof.
  intros HN HR.
  assert (Hguard : negb (BuildingType.eqb (buildingType tile) BuildingType.None)
                   && negb (BuildingType.eqb (buildingType tile) BuildingType.Road) = true).
  { destruct (buildingType tile); try reflexivity; congruence. }
  split; [|split; [|split]].
  - rewrite underConstruction_constructing. unfold constructing.
    destruct (constructionTimeLeft tile) as [t|].
    + split; [intros H; now exists t|intros (t' & E & H); congruence].
    + split; [discriminate|intros (t' & E & _); discriminate].
  - unfold underConstruction. intros [->|(s & ->)]; [reflexivity|now destruct s].
  - intros Hu. split.
    + unfold contribution. rewrite <- underConstruction_constructing, Hu.
      now destruct (buildingType tile).
    + unfold buildingContent; cbv zeta. rewrite Hguard, Hu.
      unfold underConstruction in Hu.
      destruct (constructionTimeLeft tile) as [t|]; [|discriminate].
      now exists t.
  - intros Hu. destruct (configFor_defined (buildingType tile)) as (cfg & Hcfg & _).
    exists cfg. unfold buildingContent; cbv zeta. rewrite Hguard, Hu.
    eexists. split; [exact Hcfg|]. split.
    + clear Hguard HR. revert Hcfg HN. unfold contribution.
      rewrite <- underConstruction_constructing, Hu.
      destruct (buildingType tile); intros Hcfg HN; try congruence; now rewrite Hcfg.
    + split; [rewrite Hcfg; reflexivity|].
      match goal with |- Forall _ (if ?c then _ else _) => destruct c end;
        repeat constructor. eexists; reflexivity.
Qed.

Lemma construction_gating_witness :
  let site := {| buildingType := BuildingType.Residential;
                 constructionTimeLeft := Some (of_Z 3) |} in
  contribution site = (0, 0) /\
  exists t, constructionTimeLeft site = Some t /\
    buildingContent sin_clamp site 2 5 = Ok [ConstructionSite (Some t)].
Proof.
  intros site.
  destruct (construction_gating sin_clamp site 2 5) as (_ & _ & Hsite & _);
    [discriminate|discriminate|].
  apply Hsite. reflexivity.
Defined.


(** ** The number model on known values *)

(** [Math.PI] is 0x400921FB54442D18. *)
Example Math_PI_bits : Math_PI = S754_finite false 7074237752028440 (-51).
Proof. vm_compute. reflexivity. Qed.

(** [0.1 + 0.2] is [0.30000000000000004], the successor of [0.3]. *)
Example tenth_plus_fifth :
  Nadd (decimal 1 10) (decimal 2 10) = S754_finite false 5404319552844596 (-54) /\
  decimal 3 10 = S754_finite false 5404319552844595 (-54).
Proof. split; vm_compute; reflexivity. Qed.

(** [5.5 % 4 = 1.5], [-5.5 % 4 = -1.5], [4 % 4 = 0], [-4 % 4 = -0],
    [5 % 0 = NaN], [5 % Infinity = 5]. *)
Example remainder_values :
  Nrem (decimal 55 10) (of_Z 4) = decimal 15 10 /\
  Nrem (decimal (-55) 10) (of_Z 4) = decimal (-15) 10 /\
  Nrem (of_Z 4) (of_Z 4) = S754_zero false /\
  Nrem (of_Z (-4)) (of_Z 4) = S754_zero true /\
  Nrem (of_Z 5) (of_Z 0) = NaN /\
  Nrem (of_Z 5) (S754_infinity false) = of_Z 5.
Proof. repeat split; vm_compute; reflexivity. Qed.

(** [Math.floor(5.5) = 5], [Math.floor(-5.5) = -6], [Math.floor(0.5) = 0],
    [Math.floor(-0.5) = -1]. *)
Example floor_values :
  Math_floor (decimal 55 10) = of_Z 5 /\
  Math_floor (decimal (-55) 10) = of_Z (-6) /\
  Math_floor (decimal 5 10) = of_Z 0 /\
  Math_floor (decimal (-5) 10) = of_Z (-1).
Proof. repeat split; vm_compute; reflexivity. Qed.

(** The largest number below 1 times 10 rounds to the largest number below
    10, not to 10. *)
Example largest_below_one :
  Nmul (S754_finite false 9007199254740991 (-53)) (of_Z 10)
    = S754_finite false 5629499534213119 (-49) /\
  Math_floor (Nmul (S754_finite false 9007199254740991 (-53)) (of_Z 10)) = of_Z 9.
Proof. split; vm_compute; reflexivity. Qed.

(** With the clamped stand-in for the sine, the hash of tile (1, 1) is
    [43758.5453 % 1]: the car there is white and a pickup truck. *)
Example hash_with_clamp :
  getHash sin_clamp (of_Z 1) (of_Z 1) = Nrem (decimal 437585453 10000) (of_Z 1) /\
  elemAt carColors (carColorIndex (getHash sin_clamp (of_Z 1) (of_Z 1)))
    = Some "#ffffff"%string /\
  carVariants (getHash sin_clamp (of_Z 1) (of_Z 1)) = [2].
Proof. repeat split; vm_compute; reflexivity. Qed.

(** ** Binary64 rounding *)

Lemma emin_eq : emin prec emax = -1074.
Proof. reflexivity. Qed.

Lemma fexp_eq (k : Z) : fexp prec emax k = Z.max (k - 53) (-1074).
Proof. reflexivity. Qed.

Lemma digits2_pos_bounds (m : positive) :
  2 ^ (Zpos (digits2_pos m) - 1) <= Zpos m < 2 ^ Zpos (digits2_pos m).
Proof.
  induction m as [p IH|p IH|]; simpl digits2_pos.
  - rewrite Pos2Z.inj_succ. replace (Z.succ (Zpos (digits2_pos p)) - 1)
      with (Z.succ (Zpos (digits2_pos p) - 1)) by lia.
    rewrite !Z.pow_succ_r by lia. lia.
  - rewrite Pos2Z.inj_succ. replace (Z.succ (Zpos (digits2_pos p)) - 1)
      with (Z.succ (Zpos (digits2_pos p) - 1)) by lia.
    rewrite !Z.pow_succ_r by lia. lia.
  - simpl. lia.
Qed.

Lemma Zdigits2_bounds (z : Z) :
  0 < z -> 2 ^ (Zdigits2 z - 1) <= z < 2 ^ Zdigits2 z.
Proof. destruct z as [|p|p]; try lia. intros _. apply digits2_pos_bounds. Qed.

Lemma Zdigits2_nonneg (z : Z) : 0 <= z -> 0 <= Zdigits2 z.
Proof. destruct z; simpl; lia. Qed.

Lemma Zdigits2_le (z k : Z) : 0 <= k -> 0 <= z < 2 ^ k -> Zdigits2 z <= k.
Proof.
  intros Hk [H0 H1]. destruct (Z.eq_dec z 0) as [->|Hz]; [simpl; lia|].
  destruct (Zdigits2_bounds z ltac:(lia)) as [Hlo _].
  destruct (Z_le_gt_dec (Zdigits2 z) k) as [|Hgt]; [assumption|exfalso].
  assert (2 ^ k <= 2 ^ (Zdigits2 z - 1)) by (apply Z.pow_le_mono_r; lia). lia.
Qed.

Lemma Zdigits2_ge (z k : Z) : 2 ^ (k - 1) <= z -> 1 <= k -> k <= Zdigits2 z.
Proof.
  intros Hlo Hk. assert (0 < 2 ^ (k - 1)) by pow2_pos.
  destruct (Zdigits2_bounds z ltac:(lia)) as [_ Hhi].
  destruct (Z_le_gt_dec k (Zdigits2 z)) as [|Hgt]; [assumption|exfalso].
  assert (0 <= Zdigits2 z) by (apply Zdigits2_nonneg; lia).
  assert (2 ^ Zdigits2 z <= 2 ^ (k - 1)) by (apply Z.pow_le_mono_r; lia). lia.
Qed.

Lemma iter_pos_nat {A : Type} (f : A -> A) (p : positive) (x : A) :
  iter_pos f p x = Nat.iter (Pos.to_nat p) f x.
Proof.
  revert x. induction p as [p IH|p IH|]; intros x; simpl iter_pos.
  - rewrite !IH, Pos2Nat.inj_xI.
    replace (2 * Pos.to_nat p)%nat with (Pos.to_nat p + Pos.to_nat p)%nat by lia.
    now rewrite Nat.iter_succ_r, Nat.iter_add.
  - rewrite !IH, Pos2Nat.inj_xO.
    replace (2 * Pos.to_nat p)%nat with (Pos.to_nat p + Pos.to_nat p)%nat by lia.
    now rewrite Nat.iter_add.
  - reflexivity.
Qed.

Lemma shr_1_spec (mrs : shr_record) :
  0 <= shr_m mrs ->
  shr_m (shr_1 mrs) = shr_m mrs / 2 /\ shr_r (shr_1 mrs) = Z.odd (shr_m mrs).
Proof.
  destruct mrs as [m r s]; simpl. intros Hm.
  destruct m as [|[p|p|]|p]; simpl; try lia; split; try reflexivity.
  - rewrite Pos2Z.inj_xI. apply Z.div_unique with (r := 1); lia.
  - rewrite Pos2Z.inj_xO. apply Z.div_unique with (r := 0); lia.
Qed.

Lemma iter_shr_1_spec (k : nat) (mrs : shr_record) :
  0 <= shr_m mrs ->
  shr_m (Nat.iter k shr_1 mrs) = shr_m mrs / 2 ^ Z.of_nat k /\
  (shr_r (Nat.iter (S k) shr_1 mrs) = Z.odd (shr_m mrs / 2 ^ Z.of_nat k)).
Proof.
  intros Hm. induction k as [|k [IHm IHr]].
  - simpl Nat.iter. rewrite Z.div_1_r. split; [reflexivity|]. now apply shr_1_spec.
  - assert (H0 : 0 <= shr_m (Nat.iter k shr_1 mrs)).
    { rewrite IHm. apply Z.div_pos; [assumption|]. apply Z.pow_pos_nonneg; lia. }
    assert (HS : shr_m (Nat.iter (S k) shr_1 mrs) = shr_m mrs / 2 ^ Z.of_nat (S k)).
    { simpl Nat.iter. destruct (shr_1_spec _ H0) as [-> _]. rewrite IHm.
      rewrite Nat2Z.inj_succ, Z.pow_succ_r by lia.
      rewrite Z.div_div by (try apply Z.pow_pos_nonneg; lia).
      now rewrite Z.mul_comm. }
    split; [exact HS|].
    change (Nat.iter (S (S k)) shr_1 mrs) with (shr_1 (Nat.iter (S k) shr_1 mrs)).
    assert (H1 : 0 <= shr_m (Nat.iter (S k) shr_1 mrs)).
    { rewrite HS. apply Z.div_pos; [assumption|]. apply Z.pow_pos_nonneg; lia. }
    destruct (shr_1_spec _ H1) as [_ ->]. now rewrite HS.
Qed.

(** A right shift by [n > 0] positions drops the low [n] bits; the round bit
    of the result is bit [n - 1] of the mantissa. *)
Lemma shr_spec (mrs : shr_record) (e n : Z) :
  0 <= shr_m mrs -> 0 < n ->
  exists mrs', shr mrs e n = (mrs', e + n) /\
    shr_m mrs' = shr_m mrs / 2 ^ n /\
    shr_r mrs' = Z.odd (shr_m mrs / 2 ^ (n - 1)).
Proof.
  intros Hm Hn. destruct n as [|p|p]; try lia. unfold shr.
  eexists; split; [reflexivity|]. rewrite iter_pos_nat.
  destruct (Pos2Nat.is_succ p) as [k Hk]. rewrite Hk.
  assert (Hp : Zpos p = Z.of_nat (S k)) by (rewrite <- Hk; now rewrite positive_nat_Z).
  split.
  - destruct (iter_shr_1_spec (S k) mrs Hm) as [-> _]. now rewrite Hp.
  - destruct (iter_shr_1_spec k mrs Hm) as [_ ->]. rewrite Hp.
    replace (Z.of_nat (S k) - 1) with (Z.of_nat k) by lia. reflexivity.
Qed.

Lemma shr_nonpos (mrs : shr_record) (e n : Z) : n <= 0 -> shr mrs e n = (mrs, e).
Proof. destruct n; try lia; reflexivity. Qed.

Lemma round_nearest_even_bounds (mrs : shr_record) :
  shr_m mrs <= round_nearest_even (shr_m mrs) (loc_of_shr_record mrs)
            <= shr_m mrs + (if shr_r mrs then 1 else 0).
Proof.
  destruct mrs as [m r s]; destruct r, s; simpl; try destruct (Z.even m); lia.
Qed.

Lemma odd_div_mod_ge (P n : Z) :
  0 <= P -> 0 < n -> Z.odd (P / 2 ^ (n - 1)) = true -> 2 ^ (n - 1) <= P mod 2 ^ n.
Proof.
  intros HP Hn Hodd.
  assert (Hpow : 0 < 2 ^ (n - 1)) by pow2_pos.
  assert (H2n : 2 ^ n = 2 * 2 ^ (n - 1)).
  { replace n with (Z.succ (n - 1)) at 1 by lia. apply Z.pow_succ_r. lia. }
  pose proof (Z.div_mod P (2 ^ (n - 1)) ltac:(lia)) as Hdm.
  pose proof (Z.mod_pos_bound P (2 ^ (n - 1)) Hpow) as Hr.
  rewrite Zodd_bool_iff in Hodd. apply Zodd_ex in Hodd. destruct Hodd as [q Hq].
  rewrite Hq in Hdm.
  assert (Hm : P mod 2 ^ n = 2 ^ (n - 1) + P mod 2 ^ (n - 1)).
  { symmetry. apply Z.mod_unique with (q := q); [left; lia|nia]. }
  lia.
Qed.

(** Rounding an exact positive mantissa to nearest even: the result is a zero,
    an infinity, or a finite number whose mantissa has at most 53 digits; its
    value exceeds the exact one by at most half a unit in the last place. *)
Lemma binary_round_aux_spec (s : bool) (P : positive) (E : Z) :
  exists m2 e2 : Z,
    binary_round_aux prec emax s (Zpos P) E loc_Exact =
      match m2 with
      | Z0 => S754_zero s
      | Zpos m => if e2 <=? 971 then S754_finite s m e2 else S754_infinity s
      | Zneg _ => S754_nan
      end /\
    0 <= m2 < 2 ^ 53 /\
    -1074 <= e2 /\
    E <= e2 <= Z.max E (Z.max (Zdigits2 (Zpos P) + E - 53) (-1074)) + 1 /\
    m2 * 2 ^ (e2 - E)
      <= Zpos P + 2 ^ (Z.max 0 (Z.max (Zdigits2 (Zpos P) + E - 53) (-1074) - E)) / 2.
Proof.
  unfold binary_round_aux, shr_fexp. rewrite fexp_eq.
  set (d := Zdigits2 (Zpos P)).
  set (f := Z.max (d + E - 53) (-1074)).
  pose proof (Zdigits2_bounds (Zpos P) ltac:(lia)) as [Hdlo Hdhi]. fold d in Hdlo, Hdhi.
  assert (Hd : 1 <= d) by (unfold d; simpl; lia).
  destruct (Z_le_gt_dec (f - E) 0) as [Hn|Hn].
  - (* the mantissa already fits *)
    rewrite (shr_nonpos _ _ _ Hn). simpl shr_m. simpl loc_of_shr_record.
    simpl round_nearest_even. rewrite fexp_eq. fold d. fold f.
    rewrite (shr_nonpos _ _ _ Hn). simpl shr_m.
    exists (Zpos P), E. split; [reflexivity|].
    assert (Hd53 : d <= 53) by lia.
    assert (2 ^ d <= 2 ^ 53) by (apply Z.pow_le_mono_r; lia).
    rewrite Z.sub_diag, Z.mul_1_r.
    rewrite (Z.max_l 0 (f - E)) by lia. change (2 ^ 0 / 2) with 0.
    repeat split; try lia.
  - (* some low bits are rounded away *)
    set (n := f - E) in *.
    destruct (shr_spec (shr_record_of_loc (Zpos P) loc_Exact) E n) as (mrs' & -> & Hm' & Hr');
      [simpl; lia|lia|].
    simpl shr_m in Hm', Hr'.
    pose proof (round_nearest_even_bounds mrs') as Hrne.
    set (m1 := round_nearest_even (shr_m mrs') (loc_of_shr_record mrs')) in *.
    assert (Hpn : 0 < 2 ^ n) by pow2_pos.
    assert (Hm'0 : 0 <= shr_m mrs') by (rewrite Hm'; apply Z.div_pos; lia).
    assert (Hm'53 : shr_m mrs' < 2 ^ 53).
    { rewrite Hm'. apply Z.div_lt_upper_bound; [lia|].
      rewrite <- Z.pow_add_r by lia.
      assert (2 ^ d <= 2 ^ (n + 53)) by (apply Z.pow_le_mono_r; lia). lia. }
    assert (Hup : m1 * 2 ^ n <= Zpos P + 2 ^ n / 2).
    { assert (H2n : 2 ^ n = 2 * 2 ^ (n - 1)).
      { replace n with (Z.succ (n - 1)) at 1 by lia. apply Z.pow_succ_r. lia. }
      assert (Hhalf : 2 ^ n / 2 = 2 ^ (n - 1)).
      { rewrite H2n. rewrite Z.mul_comm. apply Z.div_mul. lia. }
      rewrite Hhalf.
      pose proof (Z.div_mod (Zpos P) (2 ^ n) ltac:(lia)) as Hdm.
      pose proof (Z.mod_pos_bound (Zpos P) (2 ^ n) Hpn) as Hmod.
      rewrite <- Hm' in Hdm.
      destruct (shr_r mrs') eqn:Er.
      - symmetry in Hr'. apply odd_div_mod_ge in Hr'; try lia. nia.
      - nia. }
    assert (He' : -1074 <= E + n) by (unfold n, f; lia).
    rewrite fexp_eq.
    destruct (Z_lt_ge_dec m1 (2 ^ 53)) as [Hlt|Hge].
    + (* no carry into a 54th digit *)
      assert (Hd1 : Zdigits2 m1 <= 53) by (apply Zdigits2_le; lia).
      rewrite shr_nonpos by lia. simpl shr_m.
      exists m1, (E + n). split; [reflexivity|].
      replace (E + n - E) with n by lia.
      rewrite (Z.max_r 0 n) by lia.
      repeat split; try lia; unfold n; lia.
    + (* the carry makes the mantissa 2^53: one more exact shift *)
      assert (Hm1 : m1 = 2 ^ 53) by (destruct (shr_r mrs'); lia).
      assert (Hd1 : Zdigits2 m1 = 54).
      { apply Z.le_antisymm.
        - apply Zdigits2_le; [lia|]. rewrite Hm1. split; [lia|]. now apply Z.pow_lt_mono_r.
        - apply Zdigits2_ge; [|lia]. rewrite Hm1. simpl (54 - 1). lia. }
      rewrite Hd1.
      replace (Z.max (54 + (E + n) - 53) (-1074) - (E + n)) with 1 by lia.
      destruct (shr_spec (shr_record_of_loc m1 loc_Exact) (E + n) 1) as (mrs'' & -> & Hm'' & _);
        [simpl; lia|lia|].
      simpl shr_m in Hm''. rewrite Hm''.
      exists (m1 / 2 ^ 1), (E + n + 1). split; [reflexivity|].
      assert (Hhalf : m1 / 2 ^ 1 = 2 ^ 52) by (rewrite Hm1; reflexivity).
      rewrite Hhalf.
      replace (E + n + 1 - E) with (Z.succ n) by lia.
      rewrite Z.pow_succ_r by lia.
      rewrite (Z.max_r 0 n) by lia.
      assert (2 ^ 52 * (2 * 2 ^ n) = m1 * 2 ^ n) by (rewrite Hm1; change (2 ^ 53) with (2 * 2 ^ 52); ring).
      repeat split; try lia; unfold n; lia.
Qed.

Lemma iter_xO_spec (m d : positive) : Zpos (Pos.iter xO m d) = Zpos m * 2 ^ Zpos d.
Proof.
  rewrite (Pos.iter_swap_gen _ _ Zpos xO (Z.mul 2)) by reflexivity.
  rewrite <- Z.shiftl_mul_pow2 by lia. reflexivity.
Qed.

Lemma shl_align_spec (mx : positive) (ex ex' : Z) :
  exists mz, shl_align mx ex ex' = (mz, Z.min ex ex') /\
             Zpos mz = Zpos mx * 2 ^ (ex - Z.min ex ex').
Proof.
  unfold shl_align. destruct (ex' - ex) as [|d|d] eqn:Ed.
  - exists mx. rewrite Z.min_l by lia. rewrite Z.sub_diag. split; [reflexivity|lia].
  - exists mx. rewrite Z.min_l by lia. rewrite Z.sub_diag. split; [reflexivity|lia].
  - exists (Pos.iter xO mx d). rewrite Z.min_r by lia. split; [reflexivity|].
    rewrite iter_xO_spec. f_equal. f_equal. lia.
Qed.

(** A mantissa that fits the format at its exponent is kept as it is. *)
Lemma binary_round_aux_fits (s : bool) (P : positive) (E : Z) :
  Z.max (Zdigits2 (Zpos P) + E - 53) (-1074) <= E -> E <= 971 ->
  binary_round_aux prec emax s (Zpos P) E loc_Exact = S754_finite s P E.
Proof.
  intros Hfit HE. unfold binary_round_aux, shr_fexp. rewrite fexp_eq.
  rewrite shr_nonpos by lia.
  cbn [shr_m shr_record_of_loc loc_of_shr_record round_nearest_even].
  rewrite fexp_eq, shr_nonpos by lia.
  cbn [shr_m shr_record_of_loc].
  change (emax - prec) with 971.
  destruct (Z.leb_spec E 971); [reflexivity|lia].
Qed.

(** Normalising a mantissa below 2^53 loses nothing. *)
Lemma binary_round_exact (s : bool) (R : positive) (ez : Z) :
  Zpos R < 2 ^ 53 -> -1074 <= ez <= 971 ->
  exists mz ez', binary_round prec emax s R ez = S754_finite s mz ez' /\
    -1074 <= ez' <= ez /\ Zpos mz < 2 ^ 53 /\ Zpos mz = Zpos R * 2 ^ (ez - ez').
Proof.
  intros HR Hez. unfold binary_round. rewrite fexp_eq.
  change (Zpos (digits2_pos R)) with (Zdigits2 (Zpos R)).
  set (dR := Zdigits2 (Zpos R)).
  assert (HdR : dR <= 53) by (apply Zdigits2_le; lia).
  pose proof (Zdigits2_bounds (Zpos R) ltac:(lia)) as [_ HRhi]. fold dR in HRhi.
  assert (HdR1 : 1 <= dR) by (unfold dR; simpl; lia).
  set (f := Z.max (dR + ez - 53) (-1074)).
  destruct (shl_align_spec R ez f) as (mz & -> & Hmz).
  rewrite Z.min_r in * by (unfold f; lia).
  assert (Hpow : 0 < 2 ^ (ez - f)) by (apply Z.pow_pos_nonneg; unfold f; lia).
  assert (Hdz : Zdigits2 (Zpos mz) <= dR + (ez - f)).
  { apply Zdigits2_le; [unfold f; lia|]. split; [lia|].
    rewrite Hmz, Z.pow_add_r by (unfold f; lia).
    apply Z.mul_lt_mono_pos_r; lia. }
  rewrite binary_round_aux_fits by (unfold f in *; lia).
  exists mz, f. split; [reflexivity|]. split; [unfold f; lia|]. split; [|exact Hmz].
  pose proof (Zdigits2_bounds (Zpos mz) ltac:(lia)) as [_ Hhi].
  assert (2 ^ Zdigits2 (Zpos mz) <= 2 ^ 53).
  { apply Z.pow_le_mono_r; [lia|]. unfold f in *; lia. }
  lia.
Qed.

Lemma of_Z_1 : of_Z 1 = S754_finite false 4503599627370496 (-52).
Proof. reflexivity. Qed.

Lemma of_Z_4 : of_Z 4 = S754_finite false 4503599627370496 (-50).
Proof. reflexivity. Qed.

Lemma of_Z_10 : of_Z 10 = S754_finite false 5629499534213120 (-49).
Proof. reflexivity. Qed.

Lemma of_Z_100 : of_Z 100 = S754_finite false 7036874417766400 (-46).
Proof. reflexivity. Qed.

(** The remainder of two finite numbers with 53-digit mantissas: a zero, or
    a finite number of the dividend's sign, smaller in magnitude than the
    divisor. *)
Lemma Nrem_finite (sn sd : bool) (mn md : positive) (en ed : Z) :
  Zpos mn < 2 ^ 53 -> -1074 <= en ->
  Zpos md < 2 ^ 53 -> -1074 <= ed <= 971 ->
  Nrem (S754_finite sn mn en) (S754_finite sd md ed) = S754_zero sn \/
  exists mz ez', Nrem (S754_finite sn mn en) (S754_finite sd md ed)
                   = S754_finite sn mz ez' /\
    -1074 <= ez' /\ Zpos mz < 2 ^ 53 /\
    Zpos mz * 2 ^ (ez' + 1074) < Zpos md * 2 ^ (ed + 1074).
Proof.
  intros Hmn Hen Hmd Hed. unfold Nrem.
  set (ez := Z.min en ed).
  destruct (shl_align_spec mn en ez) as (N & -> & HN).
  destruct (shl_align_spec md ed ez) as (D & -> & HD).
  simpl fst. rewrite Z.min_r in HN by (unfold ez; lia).
  rewrite Z.min_r in HD by (unfold ez; lia).
  rewrite Z.rem_mod_nonneg by lia.
  pose proof (Z.mod_pos_bound (Zpos N) (Zpos D) ltac:(lia)) as [HR0 HRD].
  assert (HRN : Zpos N mod Zpos D <= Zpos N) by (apply Z.mod_le; lia).
  destruct (Zpos N mod Zpos D) as [|R|R] eqn:ER; [left; now destruct sn| |lia].
  right.
  assert (HR53 : Zpos R < 2 ^ 53).
  { destruct (Z.min_spec en ed) as [[_ Hz]|[_ Hz]]; fold ez in Hz.
    - rewrite Hz, Z.sub_diag, Z.mul_1_r in HN. lia.
    - rewrite Hz, Z.sub_diag, Z.mul_1_r in HD. lia. }
  destruct (binary_round_exact sn R ez HR53) as (mz & ez' & Hround & Hez' & Hmz & Hval);
    [unfold ez; lia|].
  exists mz, ez'.
  assert (Hnorm : binary_normalize prec emax (cond_Zopp sn (Zpos R)) ez sn
                  = S754_finite sn mz ez').
  { destruct sn; simpl; exact Hround. }
  split; [exact Hnorm|]. split; [lia|]. split; [exact Hmz|].
  assert (Hez : ez <= ed) by (unfold ez; lia).
  assert (Hsplit : 2 ^ (ed + 1074) = 2 ^ (ed - ez) * 2 ^ (ez - ez') * 2 ^ (ez' + 1074)).
  { pow2_split. }
  assert (0 < 2 ^ (ez - ez')) by pow2_pos.
  assert (0 < 2 ^ (ez' + 1074)) by pow2_pos.
  rewrite Hval, Hsplit. rewrite HD in HRD. nia.
Qed.

(** ** Numbers below an integer bound *)

Lemma below_exponent_neg (m : positive) (e : Z) :
  -1074 <= e -> Zpos m * 2 ^ (e + 1074) < 1 * 2 ^ 1074 -> e < 0 /\ Zpos m < 2 ^ (- e).
Proof.
  intros He H.
  assert (Hp : 0 < 2 ^ (e + 1074)) by pow2_pos.
  assert (Hlt : 2 ^ (e + 1074) < 2 ^ 1074) by nia.
  apply Z.pow_lt_mono_r_iff in Hlt; try lia.
  split; [lia|].
  assert (Hsplit : 2 ^ 1074 = 2 ^ (- e) * 2 ^ (e + 1074)).
  { pow2_split. }
  rewrite Hsplit in H. nia.
Qed.

(** [Math.floor] of a number below [K] is one of the integers [0 .. K - 1]. *)
Lemma floor_below (K : Z) (h : number) :
  0 < K -> below K h -> exists k, 0 <= k < K /\ Math_floor h = of_Z k.
Proof.
  intros HK Hb. destruct h as [[|]|[|]| |[|] m e]; cbn [below] in Hb; try contradiction.
  - exists 0. split; [lia|reflexivity].
  - destruct Hb as (Hm & He & Hv).
    exists (Z.shiftl (Zpos m) e). split; [|reflexivity].
    destruct (Z_lt_ge_dec e 0) as [Hneg|Hpos].
    + rewrite Z.shiftl_div_pow2 by lia.
      assert (Hp : 0 < 2 ^ (- e)) by pow2_pos.
      assert (Hq : 0 < 2 ^ (e + 1074)) by pow2_pos.
      assert (Hsplit : 2 ^ 1074 = 2 ^ (- e) * 2 ^ (e + 1074)).
      { pow2_split. }
      split; [apply Z.div_pos; lia|].
      apply Z.div_lt_upper_bound; [lia|]. rewrite Hsplit in Hv. nia.
    + rewrite Z.shiftl_mul_pow2 by lia.
      assert (Hp : 0 < 2 ^ e) by pow2_pos.
      rewrite Z.pow_add_r in Hv by lia. split; [lia|]. nia.
Qed.

(** Multiplying a number of [[0, 1)] by a constant [C >= 1] of integer value
    [K] never rounds up to [K]. *)
Lemma Nmul_below (h : number) (K : Z) (mc : positive) (ec : Z) :
  below 1 h ->
  2 ^ 52 <= Zpos mc < 2 ^ 53 -> -52 <= ec <= 0 ->
  Zpos mc * 2 ^ (ec + 1074) = K * 2 ^ 1074 ->
  below K (Nmul h (S754_finite false mc ec)).
Proof.
  intros Hb Hmc Hec HK. destruct h as [[|]|[|]| |[|] m e]; cbn [below] in Hb; try contradiction.
  { exact I. }
  destruct Hb as (Hm & He & Hv).
  destruct (below_exponent_neg m e He Hv) as [Heneg Hmlt].
  unfold Nmul, SFmul. simpl xorb.
  destruct (binary_round_aux_spec false (m * mc) (e + ec))
    as (m2 & e2 & -> & Hm2 & He2 & Hrange & Hup).
  set (P := Zpos (m * mc)) in *. set (E := e + ec) in *.
  assert (HP : P = Zpos m * Zpos mc) by reflexivity.
  set (d := Zdigits2 P) in *.
  pose proof (Zdigits2_bounds P ltac:(unfold P; lia)) as [Hdlo Hdhi]. fold d in Hdlo, Hdhi.
  assert (Hd1 : 1 <= d) by (unfold d, P; simpl; lia).
  assert (Hd106 : d <= 106).
  { apply Zdigits2_le; [lia|]. split; [unfold P; lia|].
    change (2 ^ 106) with (2 ^ 53 * 2 ^ 53). rewrite HP. nia. }
  assert (Hpe : 0 < 2 ^ (- e)) by pow2_pos.
  (* the rounding error is smaller than the mantissa of the constant *)
  assert (Herr : 2 ^ Z.max 0 (Z.max (d + E - 53) (-1074) - E) / 2 < Zpos mc).
  { set (n := Z.max 0 (Z.max (d + E - 53) (-1074) - E)).
    destruct (Z.eq_dec n 0) as [->|Hn0]; [change (2 ^ 0 / 2) with 0; lia|].
    assert (Hn : 0 < n) by (unfold n in *; lia).
    assert (H2n : 2 ^ n = 2 * 2 ^ (n - 1)).
    { replace n with (Z.succ (n - 1)) at 1 by lia. apply Z.pow_succ_r. lia. }
    rewrite H2n, Z.mul_comm, Z.div_mul by lia.
    destruct (Z_le_gt_dec (d - 53) (-1074 - E)) as [Hsub|Hnorm].
    - assert (Hn52 : n - 1 <= 51) by (unfold n, E in *; lia).
      assert (2 ^ (n - 1) <= 2 ^ 51) by (apply Z.pow_le_mono_r; lia).
      change (2 ^ 51) with 2251799813685248 in *. change (2 ^ 52) with 4503599627370496 in *.
      lia.
    - assert (Hnd : n - 1 = d - 54) by (unfold n in *; lia). rewrite Hnd.
      assert (Hs : 2 ^ (d - 1) = 2 ^ (d - 54) * 2 ^ 53).
      { pow2_split. }
      rewrite Hs, HP in Hdlo. nia. }
  assert (Hlt : m2 * 2 ^ (e2 - E) < Zpos mc * 2 ^ (- e)).
  { rewrite HP in Hup. nia. }
  assert (He971 : e2 <= 971) by (unfold E in *; lia).
  destruct m2 as [|m2|m2]; [exact I| |lia].
  destruct (Z.leb_spec e2 971); [|lia].
  cbn [below]. split; [lia|]. split; [lia|]. rewrite <- HK.
  assert (Hq : 0 < 2 ^ (e2 + 1074)) by pow2_pos.
  destruct (Z_le_gt_dec 0 (E + 1074)) as [HE|HE].
  - assert (H1 : 2 ^ (e2 + 1074) = 2 ^ (e2 - E) * 2 ^ (E + 1074)).
    { pow2_split. }
    assert (H2 : 2 ^ (- e) * 2 ^ (E + 1074) = 2 ^ (ec + 1074)).
    { rewrite <- Z.pow_add_r by lia. f_equal. unfold E. lia. }
    assert (0 < 2 ^ (E + 1074)) by pow2_pos.
    rewrite H1, <- H2. nia.
  - assert (H1 : 2 ^ (e2 - E) = 2 ^ (e2 + 1074) * 2 ^ (- 1074 - E)).
    { pow2_split. }
    assert (H2 : 2 ^ (- e) = 2 ^ (ec + 1074) * 2 ^ (- 1074 - E)).
    { rewrite <- Z.pow_add_r by lia. f_equal. unfold E. lia. }
    assert (0 < 2 ^ (- 1074 - E)) by pow2_pos.
    rewrite H1, H2 in Hlt. nia.
Qed.

(** The remainder of a non-negative number by a positive constant of integer
    value [K] is below [K]. *)
Lemma Nrem_below (v : number) (J K : Z) (md : positive) (ed : Z) :
  below J v ->
  Zpos md < 2 ^ 53 -> -1074 <= ed <= 971 ->
  Zpos md * 2 ^ (ed + 1074) = K * 2 ^ 1074 ->
  below K (Nrem v (S754_finite false md ed)).
Proof.
  intros Hb Hmd Hed HK. destruct v as [[|]|[|]| |[|] m e]; cbn [below] in Hb; try contradiction.
  { exact I. }
  destruct Hb as (Hm & He & _).
  destruct (Nrem_finite false false m md e ed Hm He Hmd Hed) as [->|(mz & ez' & -> & H1 & H2 & H3)].
  - exact I.
  - cbn [below]. rewrite <- HK. auto.
Qed.

Lemma Nrem_below_finite (m md : positive) (e ed K : Z) :
  Zpos m < 2 ^ 53 -> -1074 <= e ->
  Zpos md < 2 ^ 53 -> -1074 <= ed <= 971 ->
  Zpos md * 2 ^ (ed + 1074) = K * 2 ^ 1074 ->
  below K (Nrem (S754_finite false m e) (S754_finite false md ed)).
Proof.
  intros Hm He Hmd Hed HK.
  destruct (Nrem_finite false false m md e ed Hm He Hmd Hed) as [->|(mz & ez' & -> & H1 & H2 & H3)].
  - exact I.
  - cbn [below]. rewrite <- HK. auto.
Qed.

Lemma scale_1 : 4503599627370496 * 2 ^ (-52 + 1074) = 1 * 2 ^ 1074.
Proof. vm_compute. reflexivity. Qed.

Lemma scale_4 : 4503599627370496 * 2 ^ (-50 + 1074) = 4 * 2 ^ 1074.
Proof. vm_compute. reflexivity. Qed.

Lemma scale_10 : 5629499534213120 * 2 ^ (-49 + 1074) = 10 * 2 ^ 1074.
Proof. vm_compute. reflexivity. Qed.

Lemma scale_100 : 7036874417766400 * 2 ^ (-46 + 1074) = 100 * 2 ^ 1074.
Proof. vm_compute. reflexivity. Qed.

(** ** The range of [getHash] *)

Lemma hash_factor : decimal 437585453 10000 = S754_finite false 6014128671489104 (-37).
Proof. vm_compute. reflexivity. Qed.

(** A product by a finite constant that is finite has a mantissa of at most
    53 digits and an exponent of at least -1074. *)
Lemma Nmul_shape (a : number) (mc : positive) (ec : Z) :
  match Nmul a (S754_finite false mc ec) with
  | S754_finite _ m e => Zpos m < 2 ^ 53 /\ -1074 <= e
  | _ => True
  end.
Proof.
  destruct a as [s|s| |s m e]; try exact I.
  unfold Nmul, SFmul.
  destruct (binary_round_aux_spec (xorb s false) (m * mc) (e + ec))
    as (m2 & e2 & -> & Hm2 & He2 & _).
  destruct m2 as [|m2|m2]; try exact I.
  destruct (e2 <=? 971); [split; lia|exact I].
Qed.

(** [Math.abs(v) % 1] is in [[0, 1)] when [v] is finite and NaN otherwise. *)
Lemma abs_rem_1 (v : number) :
  match v with
  | S754_finite _ m e => Zpos m < 2 ^ 53 /\ -1074 <= e
  | _ => True
  end ->
  (is_finite v = true -> below 1 (Nrem (Math_abs v) (of_Z 1))) /\
  (is_finite v = false -> Nrem (Math_abs v) (of_Z 1) = NaN).
Proof.
  rewrite of_Z_1. destruct v as [s|s| |s m e]; intros Hv; split; intros Hf;
    try discriminate; try reflexivity; try exact I.
  destruct Hv as [Hm He]. cbn [Math_abs SFabs].
  apply Nrem_below_finite; first [lia | exact scale_1].
Qed.

Lemma getHash_below_or_NaN (sin_approx : number -> number) (x y : number) :
  getHash sin_approx x y = NaN \/ below 1 (getHash sin_approx x y).
Proof.
  unfold getHash. rewrite hash_factor.
  pose proof (Nmul_shape (Math_sin sin_approx (hashAngle x y)) 6014128671489104 (-37)) as Hshape.
  destruct (abs_rem_1 _ Hshape) as [Hfin Hnan].
  destruct (is_finite (Nmul (Math_sin sin_approx (hashAngle x y))
                            (S754_finite false 6014128671489104 (-37)))); auto.
Qed.

Lemma valueQ_unit_digits (s : bool) (m : positive) (e : Z) (q : Q) :
  valueQ (S754_finite s m e) = Some q -> (-1 <= q)%Q -> (q <= 1)%Q ->
  Zdigits2 (Zpos m) + e <= 1.
Proof.
  intros Hq Hlo Hhi. unfold valueQ in Hq.
  pose proof (Zdigits2_bounds (Zpos m) ltac:(lia)) as [Hdlo _].
  assert (Hd1 : 1 <= Zdigits2 (Zpos m)) by (simpl; lia).
  destruct (Z.leb_spec 0 e) as [He|He];
    apply (f_equal (fun o => match o with Some v => v | None => 0%Q end)) in Hq;
    cbv beta iota in Hq; subst q.
  - assert (Hp : 0 < 2 ^ e) by pow2_pos.
    assert (Hle : Zpos m * 2 ^ e <= 1).
    { destruct s; unfold cond_Zopp in *.
      - change (-1)%Q with (inject_Z (-1)) in Hlo. rewrite <- Zle_Qle in Hlo. lia.
      - change 1%Q with (inject_Z 1) in Hhi. rewrite <- Zle_Qle in Hhi. lia. }
    assert (Hm1 : Zpos m = 1) by nia. assert (He0 : 2 ^ e = 1) by nia.
    destruct (Z.eq_dec e 0) as [->|Hne].
    + rewrite Hm1. simpl. lia.
    + assert (2 ^ 1 <= 2 ^ e) by (apply Z.pow_le_mono_r; lia). simpl in *. lia.
  - assert (Hp : 0 < 2 ^ (- e)) by pow2_pos.
    assert (Hle : Zpos m <= 2 ^ (- e)).
    { destruct s; unfold cond_Zopp in *; unfold Qle in *; cbn [Qnum Qden] in *;
        rewrite Z2Pos.id in * by lia; lia. }
    destruct (Z_le_gt_dec (Zdigits2 (Zpos m) + e) 1) as [|Hgt]; [assumption|exfalso].
    assert (2 ^ (- e + 1) <= 2 ^ (Zdigits2 (Zpos m) - 1)) by (apply Z.pow_le_mono_r; lia).
    rewrite Z.pow_add_r in * by lia. lia.
Qed.

(** The product of a number of [[-1, 1]] by the hash factor does not
    overflow. *)
Lemma Nmul_unit_finite (a : number) (q : Q) :
  valueQ a = Some q -> (-1 <= q)%Q -> (q <= 1)%Q ->
  is_finite (Nmul a (S754_finite false 6014128671489104 (-37))) = true.
Proof.
  intros Hq Hlo Hhi. destruct a as [s|s| |s m e]; try discriminate; [reflexivity|].
  pose proof (valueQ_unit_digits s m e q Hq Hlo Hhi) as Hd.
  unfold Nmul, SFmul.
  destruct (binary_round_aux_spec (xorb s false) (m * 6014128671489104) (e + -37))
    as (m2 & e2 & -> & Hm2 & He2 & Hrange & _).
  set (P := Zpos (m * 6014128671489104)) in *.
  pose proof (Zdigits2_bounds (Zpos m) ltac:(lia)) as [_ Hmhi].
  assert (Hd1 : 1 <= Zdigits2 (Zpos m)) by (simpl; lia).
  assert (HdP : Zdigits2 P <= Zdigits2 (Zpos m) + 53).
  { apply Zdigits2_le; [lia|]. split; [unfold P; lia|].
    rewrite Z.pow_add_r by lia. unfold P. rewrite Pos2Z.inj_mul.
    change (2 ^ 53) with 9007199254740992. nia. }
  destruct m2 as [|m2|m2]; [reflexivity| |lia].
  destruct (Z.leb_spec e2 971); [reflexivity|lia].
Qed.

Lemma getHash_below (sin_approx : number -> number) (x y : number) :
  sin_bounded sin_approx -> is_finite (hashAngle x y) = true ->
  below 1 (getHash sin_approx x y).
Proof.
  intros Hsin Hangle. unfold getHash. rewrite hash_factor.
  pose proof (Nmul_shape (Math_sin sin_approx (hashAngle x y)) 6014128671489104 (-37)) as Hshape.
  apply (abs_rem_1 _ Hshape).
  destruct (hashAngle x y) as [s|s| |s m e] eqn:Ea; try discriminate; [reflexivity|].
  cbn [Math_sin]. destruct (Hsin (S754_finite s m e) eq_refl) as (q & Hq & Hlo & Hhi).
  exact (Nmul_unit_finite _ q Hq Hlo Hhi).
Qed.

Lemma below_1_inRange (h : number) : below 1 h -> inRange 0 1 h.
Proof.
  destruct h as [[|]|[|]| |[|] m e]; cbn [below]; try contradiction.
  - intros _. exists 0%Q. split; [reflexivity|]. split; [apply Qle_refl|reflexivity].
  - intros (Hm & He & Hv). destruct (below_exponent_neg m e He Hv) as [Hneg Hlt].
    assert (Hp : 0 < 2 ^ (- e)) by pow2_pos.
    unfold inRange, valueQ, cond_Zopp. destruct (Z.leb_spec 0 e); [lia|].
    eexists; split; [reflexivity|].
    unfold Qle, Qlt; cbn [Qnum Qden]. rewrite Z2Pos.id by lia. lia.
Qed.

(** A binary64 value in [[0, 1)] is below 1, or the negative zero. *)
Lemma valid_unit_below (h : number) :
  valid_binary prec emax h = true -> inRange 0 1 h ->
  below 1 h \/ h = S754_zero true.
Proof.
  intros Hvalid (q & Hq & Hlo & Hhi).
  destruct h as [[|]|s| |s m e]; try discriminate; [now right|now left|].
  left. cbn [valid_binary] in Hvalid. unfold bounded, canonical_mantissa in Hvalid.
  apply andb_true_iff in Hvalid. destruct Hvalid as [Hcanon _].
  apply Z.eqb_eq in Hcanon. rewrite fexp_eq in Hcanon.
  change (Zpos (digits2_pos m)) with (Zdigits2 (Zpos m)) in Hcanon.
  pose proof (Zdigits2_bounds (Zpos m) ltac:(lia)) as [_ Hmhi].
  assert (Hd1 : 1 <= Zdigits2 (Zpos m)) by (simpl; lia).
  assert (Hm53 : Zpos m < 2 ^ 53).
  { assert (2 ^ Zdigits2 (Zpos m) <= 2 ^ 53) by (apply Z.pow_le_mono_r; lia). lia. }
  unfold valueQ in Hq.
  destruct (Z.leb_spec 0 e) as [He|He];
    apply (f_equal (fun o => match o with Some v => v | None => 0%Q end)) in Hq;
    cbv beta iota in Hq; subst q.
  - exfalso. assert (Hp : 0 < 2 ^ e) by pow2_pos.
    destruct s; unfold cond_Zopp in *.
    + change 0%Q with (inject_Z 0) in Hlo. rewrite <- Zle_Qle in Hlo. nia.
    + change 1%Q with (inject_Z 1) in Hhi. rewrite <- Zlt_Qlt in Hhi. nia.
  - assert (Hp : 0 < 2 ^ (- e)) by pow2_pos.
    unfold Qle, Qlt in *; cbn [Qnum Qden] in *.
    rewrite Z2Pos.id in * by lia.
    destruct s; unfold cond_Zopp in *; [lia|].
    cbn [below]. split; [exact Hm53|]. split; [lia|].
    assert (Hsplit : 2 ^ 1074 = 2 ^ (- e) * 2 ^ (e + 1074)).
    { pow2_split. }
    assert (0 < 2 ^ (e + 1074)) by pow2_pos.
    rewrite Hsplit. nia.
Qed.

Lemma sin_clamp_bounded : sin_bounded sin_clamp.
Proof.
  assert (Hone : forall s, exists q,
            valueQ (S754_finite s 4503599627370496 (-52)) = Some q /\
            (-1 <= q)%Q /\ (q <= 1)%Q).
  { intros s. eexists; split; [reflexivity|]. destruct s; split; discriminate. }
  intros a Hfin. destruct a as [s|s| |s m e]; try discriminate.
  - exists 0%Q. repeat split; [discriminate|discriminate].
  - unfold sin_clamp.
    destruct (Z.leb_spec 0 e) as [He|He].
    + destruct (Z.leb_spec (Zpos m * 2 ^ e) 1) as [Hle|Hgt]; [|apply Hone].
      unfold valueQ. destruct (Z.leb_spec 0 e); [|lia].
      eexists; split; [reflexivity|].
      assert (Hp : 0 < 2 ^ e) by pow2_pos.
      change (-1)%Q with (inject_Z (-1)). change 1%Q with (inject_Z 1).
      rewrite <- !Zle_Qle. destruct s; unfold cond_Zopp; lia.
    + destruct (Z.leb_spec (Zpos m) (2 ^ (- e))) as [Hle|Hgt]; [|apply Hone].
      unfold valueQ. destruct (Z.leb_spec 0 e); [lia|].
      eexists; split; [reflexivity|].
      assert (Hp : 0 < 2 ^ (- e)) by pow2_pos.
      unfold Qle; cbn [Qnum Qden]. rewrite Z2Pos.id by lia.
      destruct s; unfold cond_Zopp; lia.
Qed.

(** ** Safe integers never overflow the argument of the sine *)

Lemma binary_round_finite (s : bool) (R : positive) (ez : Z) :
  Zdigits2 (Zpos R) + ez <= 1000 -> ez <= 900 ->
  is_finite (binary_round prec emax s R ez) = true.
Proof.
  intros Hd Hez. unfold binary_round. rewrite fexp_eq.
  change (Zpos (digits2_pos R)) with (Zdigits2 (Zpos R)).
  set (f := Z.max (Zdigits2 (Zpos R) + ez - 53) (-1074)).
  destruct (shl_align_spec R ez f) as (mz & -> & Hmz).
  set (ez' := Z.min ez f) in *.
  pose proof (Zdigits2_bounds (Zpos R) ltac:(lia)) as [_ HRhi].
  assert (Hd1 : 1 <= Zdigits2 (Zpos R)) by (simpl; lia).
  assert (Hshift : 0 <= ez - ez') by (unfold ez'; lia).
  assert (Hpow : 0 < 2 ^ (ez - ez')) by pow2_pos.
  assert (Hdz : Zdigits2 (Zpos mz) <= Zdigits2 (Zpos R) + (ez - ez')).
  { apply Zdigits2_le; [lia|]. split; [lia|].
    rewrite Hmz, Z.pow_add_r by lia. apply Z.mul_lt_mono_pos_r; lia. }
  destruct (binary_round_aux_spec s mz ez') as (m2 & e2 & -> & Hm2 & He2 & Hrange & _).
  destruct m2 as [|m2|m2]; [reflexivity| |lia].
  destruct (Z.leb_spec e2 971); [reflexivity|]. unfold ez', f in *. lia.
Qed.

Lemma of_Z_safe (z : Z) :
  Z.abs z < 2 ^ 53 ->
  of_Z z = S754_zero false \/
  exists s m e, of_Z z = S754_finite s m e /\ Zpos m < 2 ^ 53 /\ -1074 <= e <= 0.
Proof.
  intros Hz. unfold of_Z, binary_normalize. destruct z as [|p|p]; [now left| |]; right.
  - destruct (binary_round_exact false p 0) as (m & e & -> & He & Hm & _); [lia|lia|].
    exists false, m, e. auto.
  - destruct (binary_round_exact true p 0) as (m & e & -> & He & Hm & _); [lia|lia|].
    exists true, m, e. auto.
Qed.

(** The product of a safe integer by one of the two hash coefficients. *)
Lemma Nmul_safe (a : number) (mc : positive) (ec : Z) :
  (a = S754_zero false \/
   exists s m e, a = S754_finite s m e /\ Zpos m < 2 ^ 53 /\ -1074 <= e <= 0) ->
  Zpos mc < 2 ^ 53 -> ec <= 0 ->
  (exists s, Nmul a (S754_finite false mc ec) = S754_zero s) \/
  exists s m e, Nmul a (S754_finite false mc ec) = S754_finite s m e /\
    Zpos m < 2 ^ 53 /\ -1074 <= e <= 54.
Proof.
  intros [->|(s & m & e & -> & Hm & He)] Hmc Hec; [left; now exists false|].
  unfold Nmul, SFmul.
  destruct (binary_round_aux_spec (xorb s false) (m * mc) (e + ec))
    as (m2 & e2 & -> & Hm2 & He2 & Hrange & _).
  assert (HdP : Zdigits2 (Zpos (m * mc)) <= 106).
  { apply Zdigits2_le; [lia|]. split; [lia|].
    change (2 ^ 106) with (2 ^ 53 * 2 ^ 53). rewrite Pos2Z.inj_mul. nia. }
  destruct m2 as [|m2|m2]; [left; eauto| |lia]. right.
  destruct (Z.leb_spec e2 971); [|lia].
  exists (xorb s false), m2, e2. split; [reflexivity|]. lia.
Qed.

Lemma Nadd_safe (a b : number) :
  ((exists s, a = S754_zero s) \/
   exists s m e, a = S754_finite s m e /\ Zpos m < 2 ^ 53 /\ -1074 <= e <= 54) ->
  ((exists s, b = S754_zero s) \/
   exists s m e, b = S754_finite s m e /\ Zpos m < 2 ^ 53 /\ -1074 <= e <= 54) ->
  is_finite (Nadd a b) = true.
Proof.
  intros [(sa & ->)|(sa & ma & ea & -> & Hma & Hea)]
         [(sb & ->)|(sb & mb & eb & -> & Hmb & Heb)]; unfold Nadd, SFadd.
  - now destruct sa, sb.
  - reflexivity.
  - reflexivity.
  - set (ez := Z.min ea eb).
    destruct (shl_align_spec ma ea ez) as (A & -> & HA).
    destruct (shl_align_spec mb eb ez) as (B & -> & HB).
    cbn [fst]. rewrite Z.min_r in HA, HB by (unfold ez; lia).
    set (top := Z.max ea eb).
    assert (Hpa : 2 ^ (ea - ez) <= 2 ^ (top - ez)) by (apply Z.pow_le_mono_r; unfold top, ez; lia).
    assert (Hpb : 2 ^ (eb - ez) <= 2 ^ (top - ez)) by (apply Z.pow_le_mono_r; unfold top, ez; lia).
    assert (Hpt : 0 < 2 ^ (top - ez)) by (apply Z.pow_pos_nonneg; unfold top, ez; lia).
    assert (Hsum : Zpos A + Zpos B < 2 ^ (54 + (top - ez))).
    { rewrite Z.pow_add_r by (unfold top, ez; lia).
      change (2 ^ 54) with (2 * 2 ^ 53). rewrite HA, HB.
      assert (0 < 2 ^ (ea - ez)) by (apply Z.pow_pos_nonneg; unfold ez; lia).
      assert (0 < 2 ^ (eb - ez)) by (apply Z.pow_pos_nonneg; unfold ez; lia).
      nia. }
    assert (Habs : Z.abs (cond_Zopp sa (Zpos A) + cond_Zopp sb (Zpos B)) <= Zpos A + Zpos B).
    { destruct sa, sb; unfold cond_Zopp; lia. }
    destruct (cond_Zopp sa (Zpos A) + cond_Zopp sb (Zpos B)) as [|p|p] eqn:ES;
      cbn [binary_normalize]; [reflexivity| |].
    + apply binary_round_finite; [|unfold ez; lia].
      assert (Zdigits2 (Zpos p) <= 54 + (top - ez)).
      { apply Zdigits2_le; [unfold top, ez; lia|]. lia. }
      unfold top, ez in *. lia.
    + apply binary_round_finite; [|unfold ez; lia].
      assert (Zdigits2 (Zpos p) <= 54 + (top - ez)).
      { apply Zdigits2_le; [unfold top, ez; lia|]. lia. }
      unfold top, ez in *. lia.
Qed.

Lemma hash_coefficients :
  decimal 129898 10000 = S754_finite false 7312607304952159 (-49) /\
  decimal 78233 1000 = S754_finite false 5505157963251188 (-46).
Proof. split; vm_compute; reflexivity. Qed.

(** For integers of magnitude below 2^53 the argument of the sine is
    finite. *)
Lemma hashAngle_safe_finite (x y : Z) :
  Z.abs x < 2 ^ 53 -> Z.abs y < 2 ^ 53 ->
  is_finite (hashAngle (of_Z x) (of_Z y)) = true.
Proof.
  intros Hx Hy. unfold hashAngle. destruct hash_coefficients as [-> ->].
  apply Nadd_safe.
  - destruct (Nmul_safe (of_Z x) 7312607304952159 (-49) (of_Z_safe x Hx)) as [H|H];
      [reflexivity|lia|now left|now right].
  - destruct (Nmul_safe (of_Z y) 5505157963251188 (-46) (of_Z_safe y Hy)) as [H|H];
      [reflexivity|lia|now left|now right].
Qed.

(** In particular at every coordinate of the 15 x 15 grid. *)
Lemma hashAngle_grid_finite (x y : Z) :
  0 <= x < GRID_SIZE -> 0 <= y < GRID_SIZE ->
  is_finite (hashAngle (of_Z x) (of_Z y)) = true.
Proof.
  unfold GRID_SIZE. intros Hx Hy.
  assert (15 < 2 ^ 53) by reflexivity.
  apply hashAngle_safe_finite; lia.
Qed.

(** Beyond the range of the format the hash is NaN, whatever the sine. *)
Lemma getHash_overflow (sin_approx : number -> number) :
  getHash sin_approx (of_Z (2 ^ 1023)) (of_Z 0) = NaN.
Proof. vm_compute. reflexivity. Qed.

(** C1.  [getHash] is a function of its two arguments alone, and at every
    pair of integer coordinates of magnitude below 2^53, so at every array
    index and every grid coordinate (the only arguments its two call sites
    pass), its value lies in [[0, 1)].  More generally the value lies in
    [[0, 1)] whenever [x * 12.9898 + y * 78.233] is finite, and it is NaN
    when that sum is infinite or NaN. *)
Theorem getHash_range (sin_approx : number -> number) :
  sin_bounded sin_approx ->
  (forall x y : number,
     is_finite (hashAngle x y) = true -> inRange 0 1 (getHash sin_approx x y)) /\
  (forall x y : Z,
     Z.abs x < 2 ^ 53 -> Z.abs y < 2 ^ 53 ->
     inRange 0 1 (getHash sin_approx (of_Z x) (of_Z y))) /\
  (forall x y : Z,
     0 <= x < GRID_SIZE -> 0 <= y < GRID_SIZE ->
     inRange 0 1 (getHash sin_approx (of_Z x) (of_Z y))) /\
  (forall x y : number,
     is_finite (hashAngle x y) = false -> getHash sin_approx x y = NaN) /\
  (forall x y x' y' : number,
     x = x' -> y = y' -> getHash sin_approx x y = getHash sin_approx x' y').
Proof.
  intros Hsin.
  assert (Hgen : forall x y : number,
     is_finite (hashAngle x y) = true -> inRange 0 1 (getHash sin_approx x y)).
  { intros x y Hfin. apply below_1_inRange. now apply getHash_below. }
  split; [exact Hgen|]. split; [|split; [|split]].
  - intros x y Hx Hy. apply Hgen. now apply hashAngle_safe_finite.
  - intros x y Hx Hy. apply Hgen. now apply hashAngle_grid_finite.
  - intros x y Hinf. unfold getHash.
    destruct (hashAngle x y) as [s|s| |s m e]; try discriminate; reflexivity.
  - now intros x y x' y' -> ->.
Qed.

Lemma getHash_range_witness :
  sin_bounded sin_clamp /\
  inRange 0 1 (getHash sin_clamp (of_Z 3) (of_Z 7)).
Proof.
  split; [exact sin_clamp_bounded|].
  apply (proj1 (proj2 (proj2 (getHash_range sin_clamp sin_clamp_bounded))));
    unfold GRID_SIZE; lia.
Defined.

(** ** What [ProceduralBuilding] derives from the hash *)

Lemma quarter_turn (k : Z) :
  0 <= k < 4 -> In (Nmul (of_Z k) (Ndiv Math_PI (of_Z 2))) quarterTurns.
Proof.
  intros Hk. assert (Hcases : k = 0 \/ k = 1 \/ k = 2 \/ k = 3) by lia.
  destruct Hcases as [-> | [-> | [-> | ->]]]; vm_compute; tauto.
Qed.

Lemma floor_times_below (h : number) :
  below 1 h ->
  (exists k, 0 <= k < 4 /\ Math_floor (Nmul h (of_Z 4)) = of_Z k) /\
  (exists k, 0 <= k < 10 /\ Math_floor (Nmul h (of_Z 10)) = of_Z k) /\
  (exists k, 0 <= k < 100 /\ Math_floor (Nmul h (of_Z 100)) = of_Z k).
Proof.
  intros Hb. rewrite of_Z_4, of_Z_10, of_Z_100. repeat split.
  - apply floor_below; [lia|].
    apply Nmul_below; [assumption|split; [reflexivity|reflexivity]|lia|exact scale_4].
  - apply floor_below; [lia|].
    apply Nmul_below; [assumption|split; [discriminate|reflexivity]|lia|exact scale_10].
  - apply floor_below; [lia|].
    apply Nmul_below; [assumption|split; [discriminate|reflexivity]|lia|exact scale_100].
Qed.

(** C8.  At the coordinates of every tile, where
    [x * 12.9898 + y * 78.233] is finite (as it is for all integers of
    magnitude below 2^53, so at every array index and grid coordinate),
    the rotation of a procedural building is
    [Math.floor(getHash(x, y) * 4) * (Math.PI / 2)], one of the four quarter
    turns, and its variant index [Math.floor(getHash(x, y) * 100)] is one of
    0 .. 99; both are functions of the coordinates alone. *)
Theorem procedural_rotation_variant (sin_approx : number -> number) :
  sin_bounded sin_approx ->
  (forall x y : Z, Z.abs x < 2 ^ 53 -> Z.abs y < 2 ^ 53 ->
     is_finite (hashAngle (of_Z x) (of_Z y)) = true) /\
  (forall x y : Z, 0 <= x < GRID_SIZE -> 0 <= y < GRID_SIZE ->
     is_finite (hashAngle (of_Z x) (of_Z y)) = true) /\
  (forall x y : number,
     is_finite (hashAngle x y) = true ->
     rotation sin_approx x y
       = Nmul (Math_floor (Nmul (getHash sin_approx x y) (of_Z 4)))
              (Ndiv Math_PI (of_Z 2)) /\
     (exists k, 0 <= k <= 3 /\
        Math_floor (Nmul (getHash sin_approx x y) (of_Z 4)) = of_Z k) /\
     In (rotation sin_approx x y) quarterTurns /\
     (exists k, 0 <= k <= 99 /\ variant sin_approx x y = of_Z k)) /\
  (forall x y x' y' : number, x = x' -> y = y' ->
     rotation sin_approx x y = rotation sin_approx x' y' /\
     variant sin_approx x y = variant sin_approx x' y').
Proof.
  intros Hsin. split; [exact hashAngle_safe_finite|].
  split; [exact hashAngle_grid_finite|]. split.
  - intros x y Hfin.
    pose proof (getHash_below sin_approx x y Hsin Hfin) as Hb.
    destruct (floor_times_below _ Hb) as ((k4 & Hk4 & E4) & _ & (k100 & Hk100 & E100)).
    split; [reflexivity|]. split; [exists k4; split; [lia|exact E4]|]. split.
    + unfold rotation. rewrite E4. now apply quarter_turn.
    + exists k100. split; [lia|exact E100].
  - now intros x y x' y' -> ->.
Qed.

Lemma procedural_rotation_variant_witness :
  sin_bounded sin_clamp /\
  In (rotation sin_clamp (of_Z 3) (of_Z 7)) quarterTurns /\
  (exists k, 0 <= k <= 99 /\ variant sin_clamp (of_Z 3) (of_Z 7) = of_Z k).
Proof.
  split; [exact sin_clamp_bounded|].
  destruct (procedural_rotation_variant sin_clamp sin_clamp_bounded)
    as (_ & Hgrid & Hgen & _).
  destruct (Hgen (of_Z 3) (of_Z 7)) as (_ & _ & Hrot & Hvar).
  - apply Hgrid; unfold GRID_SIZE; lia.
  - split; assumption.
Defined.

(** ** Hash-derived indices *)

Lemma small_index (k : Z) : 0 <= k < 10 -> integerValue (of_Z k) = Some k.
Proof.
  intros Hk.
  assert (Hcases : k = 0 \/ k = 1 \/ k = 2 \/ k = 3 \/ k = 4 \/
                   k = 5 \/ k = 6 \/ k = 7 \/ k = 8 \/ k = 9) by lia.
  repeat (destruct Hcases as [-> | Hcases]; [reflexivity|]). now subst k.
Qed.

Lemma carColors_defined (k : Z) : 0 <= k < 10 -> exists c, elem carColors k = Some c.
Proof.
  intros Hk. destruct (elem_in_bounds carColors k) as (c & Hc & _); [exact Hk|].
  now exists c.
Qed.

Lemma carVariants_single (t : Z) :
  0 <= t < 4 -> filter (fun k => Nseq (of_Z t) (of_Z k)) [0; 1; 2; 3] = [t].
Proof.
  intros Ht. assert (Hcases : t = 0 \/ t = 1 \/ t = 2 \/ t = 3) by lia.
  destruct Hcases as [-> | [-> | [-> | ->]]]; reflexivity.
Qed.

(** The indices derived from a number below 1. *)
Lemma indices_below (h : number) :
  below 1 h ->
  (exists k c, 0 <= k <= 9 /\ integerValue (carColorIndex h) = Some k /\
               elem carColors k = Some c /\
               elemAt carColors (carColorIndex h) = Some c) /\
  (exists t, 0 <= t <= 3 /\ integerValue (carType h) = Some t /\
             carVariants h = [t]).
Proof.
  intros Hb. split.
  - destruct (floor_times_below h Hb) as (_ & (k & Hk & E) & _).
    destruct (carColors_defined k Hk) as (c & Hc).
    exists k, c. unfold elemAt, carColorIndex. rewrite E, (small_index k) by lia.
    repeat split; try lia; assumption.
  - assert (Hrem : below 4 (Nrem (Nmul h (of_Z 100)) (of_Z 4))).
    { rewrite of_Z_100, of_Z_4.
      apply Nrem_below with (J := 100); [|reflexivity|lia|exact scale_4].
      apply Nmul_below; [assumption|split; [discriminate|reflexivity]|lia|exact scale_100]. }
    destruct (floor_below 4 _ ltac:(lia) Hrem) as (t & Ht & E).
    exists t. unfold carVariants, carType. rewrite E, (small_index t) by lia.
    repeat split; try lia. now apply carVariants_single.
Qed.

Lemma Ngt_not_NaN (h c : number) : Ngt h c = true -> h <> NaN.
Proof. intros H ->. unfold Ngt, SFltb in H. now destruct c. Qed.

(** Every car among the elements of a tile carries the hash of the tile as
    its seed, and that hash is a number below 1. *)
Lemma roadContent_car (sin_approx : number -> number) (grid : Grid) (tile : TileData)
    (x y : Z) (elements : list Element) (axis : Axis) (seed : number)
    (color : option string) :
  roadContent sin_approx grid tile x y = Ok elements ->
  In (Car axis seed color) elements ->
  seed = getHash sin_approx (of_Z x) (of_Z y) /\
  color = elemAt carColors (carColorIndex seed) /\
  Ngt seed (decimal 4 10) = true /\
  getRoadAxis grid x y = Ok axis /\
  below 1 seed.
Proof.
  unfold roadContent. set (hash := getHash sin_approx (of_Z x) (of_Z y)).
  destruct (isIntersection grid tile x y) as [crossing|]; [|discriminate].
  cbn [bind].
  destruct (BuildingType.eqb (buildingType tile) BuildingType.Road);
    [|intros [= <-] []].
  assert (Hperson : ~ In (Car axis seed color)
            (if Nlt hash (decimal 2 10) then [Person hash] else [])).
  { destruct (Nlt hash (decimal 2 10)); simpl; intuition discriminate. }
  destruct crossing.
  { cbn [bind]. intros [= <-] Hin. change (In (Car axis seed color)
      (TrafficLight :: (if Nlt hash (decimal 2 10) then [Person hash] else []))) in Hin.
    destruct Hin as [Hin|Hin]; [discriminate|contradiction]. }
  destruct (Ngt hash (decimal 4 10)) eqn:Egt.
  - destruct (getRoadAxis grid x y) as [axis'|]; [|discriminate].
    cbn [bind]. intros [= <-] Hin. change (In (Car axis seed color)
      (Car axis' hash (elemAt carColors (carColorIndex hash))
       :: (if Nlt hash (decimal 2 10) then [Person hash] else []))) in Hin.
    destruct Hin as [Hin|Hin]; [|contradiction].
    injection Hin as -> <- <-. repeat split; try assumption; try reflexivity.
    destruct (getHash_below_or_NaN sin_approx (of_Z x) (of_Z y)) as [Hnan|Hb];
      [|exact Hb].
    exfalso. exact (Ngt_not_NaN _ _ Egt Hnan).
  - cbn [bind]. intros [= <-] Hin. change (In (Car axis seed color)
      (if Nlt hash (decimal 2 10) then [Person hash] else [])) in Hin.
    contradiction.
Qed.

(** C10.  For every binary64 value [hash] in [[0, 1)], the colour index
    [Math.floor(hash * 10)] is one of 0 .. 9 and the lookup in the ten-colour
    array is defined, and the car type [Math.floor((seed * 100) % 4)] is one
    of 0 .. 3, so exactly one variant guard holds.  In the renderer this
    covers every car that is drawn: its colour is defined and exactly one of
    its variants is selected. *)
Theorem hash_indices_in_bounds :
  (forall hash : number,
     valid_binary prec emax hash = true -> inRange 0 1 hash ->
     (exists k c, 0 <= k <= 9 /\ integerValue (carColorIndex hash) = Some k /\
                  elem carColors k = Some c /\
                  elemAt carColors (carColorIndex hash) = Some c) /\
     (exists t, 0 <= t <= 3 /\ integerValue (carType hash) = Some t /\
                carVariants hash = [t])) /\
  (forall (sin_approx : number -> number) (grid : Grid) (tile : TileData) (x y : Z)
          (elements : list Element) (axis : Axis) (seed : number)
          (color : option string),
     roadContent sin_approx grid tile x y = Ok elements ->
     In (Car axis seed color) elements ->
     seed = getHash sin_approx (of_Z x) (of_Z y) /\
     inRange 0 1 seed /\
     (exists k c, 0 <= k <= 9 /\ integerValue (carColorIndex seed) = Some k /\
                  elem carColors k = Some c /\ color = Some c) /\
     (exists t, 0 <= t <= 3 /\ integerValue (carType seed) = Some t /\
                carVariants seed = [t])).
Proof.
  split.
  - intros hash Hvalid Hrange.
    destruct (valid_unit_below hash Hvalid Hrange) as [Hb| ->].
    + now apply indices_below.
    + split; [exists 0, "#ef4444"%string|exists 0]; repeat split; try lia; reflexivity.
  - intros sin_approx grid tile x y elements axis seed color Hok Hin.
    destruct (roadContent_car _ _ _ _ _ _ _ _ _ Hok Hin) as (Hseed & Hcolor & _ & _ & Hb).
    destruct (indices_below seed Hb) as ((k & c & Hk & Hidx & Hc & Hcol) & Htype).
    split; [exact Hseed|]. split; [now apply below_1_inRange|]. split; [|exact Htype].
    exists k, c. repeat split; try lia; try assumption. congruence.
Qed.

Lemma hash_indices_in_bounds_witness :
  valid_binary prec emax (decimal 437 1000) = true /\
  inRange 0 1 (decimal 437 1000) /\
  (exists k c, 0 <= k <= 9 /\
     integerValue (carColorIndex (decimal 437 1000)) = Some k /\
     elem carColors k = Some c /\
     elemAt carColors (carColorIndex (decimal 437 1000)) = Some c) /\
  (exists t, 0 <= t <= 3 /\ integerValue (carType (decimal 437 1000)) = Some t /\
     carVariants (decimal 437 1000) = [t]).
Proof.
  assert (Hvalid : valid_binary prec emax (decimal 437 1000) = true) by reflexivity.
  assert (Hrange : inRange 0 1 (decimal 437 1000)).
  { eexists; split; [reflexivity|]. split; [discriminate|reflexivity]. }
  split; [exact Hvalid|]. split; [exact Hrange|].
  exact (proj1 hash_indices_in_bounds (decimal 437 1000) Hvalid Hrange).
Defined.

(** ** The decoration of road tiles *)

(** C9.  The decoration of a road tile that is not an intersection is a
    function of the grid and the coordinates: a car is shown exactly when
    [getHash(x, y) > 0.4], with the hash as its seed, its colour looked up at
    [Math.floor(hash * 10)] and its axis given by the road neighbours, and a
    person is shown exactly when [getHash(x, y) < 0.2]; the tiles of a render
    do not depend on the random numbers drawn for the cloud layer. *)
Theorem road_decoration_deterministic (sin_approx : number -> number) (grid : Grid) :
  rectangular grid ->
  (forall (tile : TileData) (x y : Z),
     buildingType tile = BuildingType.Road ->
     isIntersection grid tile x y = Ok false ->
     let hash := getHash sin_approx (of_Z x) (of_Z y) in
     let axis := if (roadAt grid x (y - 1) || roadAt grid x (y + 1))
                    && negb (roadAt grid (x - 1) y || roadAt grid (x + 1) y)
                 then AxisZ else AxisX in
     exists elements,
       roadContent sin_approx grid tile x y = Ok elements /\
       elements =
         (if Ngt hash (decimal 4 10)
          then [Car axis hash (elemAt carColors (carColorIndex hash))] else [])
         ++ (if Nlt hash (decimal 2 10) then [Person hash] else []) /\
       ((exists a s c, In (Car a s c) elements) <-> Ngt hash (decimal 4 10) = true) /\
       ((exists s, In (Person s) elements) <-> Nlt hash (decimal 2 10) = true)) /\
  (forall r1 r2 : Random,
     match IsoMap sin_approx grid r1, IsoMap sin_approx grid r2 with
     | Ok (_, tiles1), Ok (_, tiles2) =>
         tiles1 = tiles2 /\ renderTiles sin_approx grid = Ok tiles1
     | TypeError, TypeError => renderTiles sin_approx grid = TypeError
     | _, _ => False
     end).
Proof.
  intros R. split.
  - intros tile x y Hroad Hcross hash axis.
    eexists. split; [|split; [reflexivity|]].
    + unfold roadContent. fold hash. rewrite Hcross, Hroad. cbn [bind BuildingType.eqb].
      destruct (Ngt hash (decimal 4 10)); [|reflexivity].
      rewrite (getRoadAxis_roadAt grid x y R). reflexivity.
    + destruct (Ngt hash (decimal 4 10)), (Nlt hash (decimal 2 10));
        cbn [app]; (split; split; intros H).
      all: try reflexivity.
      all: try (do 3 eexists; left; reflexivity).
      all: try (eexists; left; reflexivity).
      all: try (eexists; right; left; reflexivity).
      all: repeat match goal with
             | H : exists _, _ |- _ => destruct H
             | H : In _ _ |- _ => simpl in H
             | H : _ \/ _ |- _ => destruct H
             | H : False |- _ => destruct H
             | H : _ = _ |- _ => discriminate H
             end.
  - intros r1 r2. unfold IsoMap.
    destruct (clouds [0; 1; 2; 3; 4; 5] r1) as [cs1 r1'].
    destruct (clouds [0; 1; 2; 3; 4; 5] r2) as [cs2 r2'].
    destruct (renderTiles sin_approx grid); cbn [bind]; auto.
Qed.

Lemma road_decoration_deterministic_witness :
  let grid := [[emptyTile; emptyTile; emptyTile];
               [roadTile; roadTile; roadTile];
               [emptyTile; emptyTile; emptyTile]] in
  rectangular grid /\
  roadContent sin_clamp grid roadTile 1 1
    = Ok [Car AxisX (getHash sin_clamp (of_Z 1) (of_Z 1)) (Some "#ffffff"%string)].
Proof.
  intros grid.
  assert (R : rectangular grid).
  { intros row [<-|[<-|[<-|[]]]]; reflexivity. }
  split; [exact R|].
  destruct (proj1 (road_decoration_deterministic sin_clamp grid R) roadTile 1 1
              eq_refl eq_refl) as (elements & -> & -> & _).
  vm_compute. reflexivity.
Defined.


(** * Further properties of the map component *)

(** ** [isRoad] on arbitrary grids *)

(** X1.  On any grid, ragged or empty, [isRoad] throws exactly when the row
    exists, the column is within the first row, and the row itself is too
    short; in every other case it returns whether a road lies at the
    coordinate, except that columns beyond the first row's width are
    reported as no road. *)
Theorem isRoad_throws_iff (grid : Grid) (r c : Z) :
  (isRoad grid r c = TypeError <->
     exists row, elem grid r = Some row /\ len row <= c < len (hd [] grid)) /\
  ((forall row, elem grid r = Some row -> ~ (len row <= c < len (hd [] grid))) ->
     isRoad grid r c = Ok (roadAt grid c r && (c <? len (hd [] grid)))) /\
  isRoad [] r c = Ok false.
Proof.
  assert (Hempty : isRoad [] r c = Ok false).
  { unfold isRoad. change (len (@nil (list TileData))) with 0.
    destruct (Z.ltb_spec r 0); [reflexivity|].
    destruct (Z.geb_spec r 0); [reflexivity|lia]. }
  split; [|split; [|exact Hempty]].
  - unfold isRoad.
    destruct (Z.ltb_spec r 0) as [Hr0|Hr0]; cbn [orb].
    { split; [discriminate|]. intros (row & Hrow & _).
      apply elem_Some_bounds in Hrow. lia. }
    destruct (Z.geb_spec r (len grid)) as [Hr1|Hr1]; cbn [orb].
    { split; [discriminate|]. intros (row & Hrow & _).
      apply elem_Some_bounds in Hrow. lia. }
    destruct (Z.ltb_spec c 0) as [Hc0|Hc0]; cbn [orb].
    { split; [discriminate|]. intros (row & _ & Hc). unfold len in Hc. lia. }
    destruct (elem_in_bounds grid 0) as (row0 & E0 & _); [lia|].
    destruct (elem_in_bounds grid r) as (row & Er & _); [lia|].
    rewrite E0, Er. cbn [deref bind]. rewrite (elem_zero_hd _ _ E0).
    destruct (Z.geb_spec c (len row0)) as [Hc1|Hc1].
    { split; [discriminate|]. intros (row' & _ & Hc). lia. }
    destruct (elem row c) as [tile|] eqn:Et; cbn [deref bind].
    + split; [discriminate|]. intros (row' & Hrow' & Hc).
      apply elem_Some_bounds in Et. assert (row' = row) by congruence. subst. lia.
    + split; [intros _|reflexivity]. exists row. split; [reflexivity|].
      destruct (Z_lt_ge_dec c (len row)) as [Hlt|Hge]; [|lia].
      destruct (elem_in_bounds row c) as (tile & Et' & _); [lia|]. congruence.
  - intros Hok. unfold isRoad, roadAt, tileAt.
    destruct (Z.ltb_spec r 0) as [Hr0|Hr0]; cbn [orb].
    { now rewrite (elem_out_of_bounds grid r) by lia. }
    destruct (Z.geb_spec r (len grid)) as [Hr1|Hr1]; cbn [orb].
    { now rewrite (elem_out_of_bounds grid r) by lia. }
    destruct (elem_in_bounds grid 0) as (row0 & E0 & _); [lia|].
    destruct (elem_in_bounds grid r) as (row & Er & _); [lia|].
    rewrite Er. rewrite (elem_zero_hd _ _ E0) in *.
    destruct (Z.ltb_spec c 0) as [Hc0|Hc0]; cbn [orb].
    { now rewrite (elem_out_of_bounds row c) by lia. }
    rewrite E0. cbn [deref bind].
    destruct (Z.geb_spec c (len row0)) as [Hc1|Hc1].
    { destruct (Z.ltb_spec c (len row0)); [lia|]. now rewrite andb_false_r. }
    destruct (Z.ltb_spec c (len row0)); [|lia]. rewrite andb_true_r.
    destruct (elem row c) as [tile|] eqn:Et; [reflexivity|].
    exfalso. apply (Hok row Er).
    destruct (Z_lt_ge_dec c (len row)) as [Hlt|Hge]; [|lia].
    destruct (elem_in_bounds row c) as (tile & Et' & _); [lia|]. congruence.
Qed.

Lemma isRoad_throws_iff_witness :
  isRoad raggedGrid 1 1 = TypeError /\ isRoad raggedGrid 0 1 = Ok true.
Proof.
  destruct (isRoad_throws_iff raggedGrid 1 1) as ((_ & Hthrow) & _).
  destruct (isRoad_throws_iff raggedGrid 0 1) as (_ & Hok & _).
  split.
  - apply Hthrow. exists [roadTile]. split; [reflexivity|].
    unfold len; simpl. lia.
  - rewrite Hok; [reflexivity|]. intros row [= <-]. unfold len; simpl. lia.
Defined.

(** ** Rendering the tiles *)

Lemma gt_04_not_lt_02 (h : number) :
  Ngt h (decimal 4 10) = true -> Nlt h (decimal 2 10) = false.
Proof.
  assert (E4 : decimal 4 10 = S754_finite false 7205759403792794 (-54))
    by (vm_compute; reflexivity).
  assert (E2 : decimal 2 10 = S754_finite false 7205759403792794 (-55))
    by (vm_compute; reflexivity).
  rewrite E4, E2. unfold Ngt, Nlt, SFltb, SFcompare.
  destruct h as [[|]|[|]| |[|] m e]; try discriminate; try reflexivity.
  destruct (Z.compare_spec (-54) e) as [He|He|He]; try discriminate.
  - subst e. intros _. reflexivity.
  - intros _. destruct (Z.compare_spec e (-55)) as [He'|He'|He']; first [lia|reflexivity].
Qed.

Lemma isIntersection_degree (grid : Grid) (tile : TileData) (x y : Z) :
  rectangular grid -> buildingType tile = BuildingType.Road ->
  isIntersection grid tile x y = Ok (intersectionDegree grid x y >=? 3).
Proof.
  intros R Hroad. unfold isIntersection. rewrite Hroad. cbn [BuildingType.eqb].
  rewrite (neighbors_roadAt grid x y R), <- intersectionDegree_sum. reflexivity.
Qed.

Lemma roadContent_not_road (sin_approx : number -> number) (grid : Grid)
    (tile : TileData) (x y : Z) :
  buildingType tile <> BuildingType.Road ->
  roadContent sin_approx grid tile x y = Ok [].
Proof.
  intros Hnr. unfold roadContent, isIntersection.
  destruct (BuildingType.eqb (buildingType tile) BuildingType.Road) eqn:E;
    [apply BuildingType_eqb_eq in E; contradiction|reflexivity].
Qed.

(** The road content of a road tile on a rectangular grid, in closed form. *)
Lemma roadContent_road (sin_approx : number -> number) (grid : Grid)
    (tile : TileData) (x y : Z) :
  rectangular grid -> buildingType tile = BuildingType.Road ->
  let hash := getHash sin_approx (of_Z x) (of_Z y) in
  exists axis,
    getRoadAxis grid x y = Ok axis /\
    roadContent sin_approx grid tile x y =
      Ok ((if intersectionDegree grid x y >=? 3 then [TrafficLight]
           else if Ngt hash (decimal 4 10)
                then [Car axis hash (elemAt carColors (carColorIndex hash))]
                else [])
          ++ (if Nlt hash (decimal 2 10) then [Person hash] else [])).
Proof.
  intros R Hroad hash. eexists. split; [apply (getRoadAxis_roadAt grid x y R)|].
  unfold roadContent. fold hash. cbv zeta.
  rewrite (isIntersection_degree grid tile x y R Hroad), Hroad.
  cbn [bind BuildingType.eqb].
  destruct (intersectionDegree grid x y >=? 3); [reflexivity|].
  match goal with |- context [Ngt ?a ?b] => destruct (Ngt a b) end; [|reflexivity].
  rewrite (getRoadAxis_roadAt grid x y R). reflexivity.
Qed.

Lemma buildingContent_ok (sin_approx : number -> number) (tile : TileData) (x y : Z) :
  exists elements, buildingContent sin_approx tile x y = Ok elements.
Proof.
  unfold buildingContent. cbv zeta.
  destruct (negb (BuildingType.eqb (buildingType tile) BuildingType.None)
            && negb (BuildingType.eqb (buildingType tile) BuildingType.Road));
    [|eexists; reflexivity].
  destruct (underConstruction tile); [eexists; reflexivity|].
  destruct (configFor_defined (buildingType tile)) as (cfg & -> & _).
  cbn [deref bind]. eexists; reflexivity.
Qed.

(** X2.  The road content of a tile has one of six shapes: nothing for a tile
    that is not a road; for a road tile a traffic light (with or without a
    pedestrian) at an intersection, and otherwise nothing, a lone pedestrian
    or a lone car.  A car is never shown together with a pedestrian or a
    traffic light. *)
Theorem road_content_shapes (sin_approx : number -> number) (grid : Grid)
    (tile : TileData) (x y : Z) (elements : list Element) :
  roadContent sin_approx grid tile x y = Ok elements ->
  let hash := getHash sin_approx (of_Z x) (of_Z y) in
  (buildingType tile <> BuildingType.Road -> elements = []) /\
  (buildingType tile = BuildingType.Road ->
     (isIntersection grid tile x y = Ok true /\
        (elements = [TrafficLight] \/ elements = [TrafficLight; Person hash])) \/
     (isIntersection grid tile x y = Ok false /\
        (elements = [] \/ elements = [Person hash] \/
         exists axis, getRoadAxis grid x y = Ok axis /\
           elements = [Car axis hash (elemAt carColors (carColorIndex hash))]))).
Proof.
  intros Hok hash. unfold roadContent in Hok. fold hash in Hok.
  destruct (isIntersection grid tile x y) as [crossing|]; [|discriminate].
  cbn [bind] in Hok.
  destruct (BuildingType.eqb (buildingType tile) BuildingType.Road) eqn:Eroad.
  - split; [intros Hne; apply BuildingType_eqb_eq in Eroad; contradiction|].
    intros _. destruct crossing.
    + left. split; [reflexivity|]. cbn [bind] in Hok. injection Hok as <-.
      destruct (Nlt hash (decimal 2 10)); [right|left]; reflexivity.
    + right. split; [reflexivity|].
      destruct (Ngt hash (decimal 4 10)) eqn:Egt.
      * rewrite (gt_04_not_lt_02 hash Egt) in Hok.
        destruct (getRoadAxis grid x y) as [axis|]; [|discriminate].
        cbn [bind] in Hok. injection Hok as <-.
        right. right. exists axis. split; reflexivity.
      * cbn [bind] in Hok. injection Hok as <-.
        destruct (Nlt hash (decimal 2 10)); [right; left|left]; reflexivity.
  - split; [intros _; now injection Hok as <-|].
    intros Hroad. rewrite Hroad in Eroad. discriminate.
Qed.

Lemma road_content_shapes_witness :
  roadContent sin_clamp crossroads roadTile 1 1 = Ok [TrafficLight] /\
  (isIntersection crossroads roadTile 1 1 = Ok true /\
   ([TrafficLight] = [TrafficLight] \/
    [TrafficLight] = [TrafficLight; Person (getHash sin_clamp (of_Z 1) (of_Z 1))]) \/
   isIntersection crossroads roadTile 1 1 = Ok false /\
   ([TrafficLight] = [] \/
    [TrafficLight] = [Person (getHash sin_clamp (of_Z 1) (of_Z 1))] \/
    exists axis, getRoadAxis crossroads 1 1 = Ok axis /\
      [TrafficLight] = [Car axis (getHash sin_clamp (of_Z 1) (of_Z 1))
                          (elemAt carColors
                             (carColorIndex (getHash sin_clamp (of_Z 1) (of_Z 1))))])).
Proof.
  assert (Hok : roadContent sin_clamp crossroads roadTile 1 1 = Ok [TrafficLight])
    by (vm_compute; reflexivity).
  split; [exact Hok|].
  exact (proj2 (road_content_shapes sin_clamp crossroads roadTile 1 1 _ Hok) eq_refl).
Defined.

(** X3.  On a rectangular grid a road tile shows a traffic light exactly when at
    least three of its four orthogonal neighbours are roads, and a tile with
    a traffic light shows no car. *)
Theorem traffic_light_iff_degree (sin_approx : number -> number) (grid : Grid)
    (tile : TileData) (x y : Z) :
  rectangular grid ->
  buildingType tile = BuildingType.Road ->
  exists elements,
    roadContent sin_approx grid tile x y = Ok elements /\
    (In TrafficLight elements <-> 3 <= intersectionDegree grid x y) /\
    (In TrafficLight elements ->
       forall axis seed color, ~ In (Car axis seed color) elements).
Proof.
  intros R Hroad.
  destruct (roadContent_road sin_approx grid tile x y R Hroad) as (ax & _ & Hok).
  eexists. split; [exact Hok|].
  destruct (Z.geb_spec (intersectionDegree grid x y) 3) as [Hge|Hlt].
  - split; [split; [intros _; lia|intros _; now left]|].
    intros _ axis seed color [H|H]; [discriminate|].
    cbn [app] in H. destruct (Nlt _ _); [destruct H as [H|[]]; discriminate|destruct H].
  - split; [split; [|intros; lia]|].
    + intros H. apply in_app_or in H. destruct H as [H|H].
      * destruct (Ngt _ _); [destruct H as [H|[]]; discriminate|destruct H].
      * destruct (Nlt _ _); [destruct H as [H|[]]; discriminate|destruct H].
    + intros H. exfalso. apply in_app_or in H. destruct H as [H|H].
      * destruct (Ngt _ _); [destruct H as [H|[]]; discriminate|destruct H].
      * destruct (Nlt _ _); [destruct H as [H|[]]; discriminate|destruct H].
Qed.

Lemma traffic_light_iff_degree_witness :
  rectangular crossroads /\
  exists elements,
    roadContent sin_clamp crossroads roadTile 1 1 = Ok elements /\
    (In TrafficLight elements <-> 3 <= intersectionDegree crossroads 1 1).
Proof.
  split; [exact crossroads_rectangular|].
  destruct (traffic_light_iff_degree sin_clamp crossroads roadTile 1 1
              crossroads_rectangular eq_refl) as (elements & Hok & Hiff & _).
  exists elements. split; assumption.
Defined.

(** X4.  A tile that is not a road is rendered without reading any neighbour, so
    on any grid, ragged ones included: an empty tile yields nothing; a
    building yields a construction site, or the finished building followed
    by at most one pedestrian, who appears only beside a finished shop, park
    or restaurant whose hash exceeds 0.7. *)
Theorem building_tile_render (sin_approx : number -> number) (grid : Grid)
    (tile : TileData) (x y : Z) :
  buildingType tile <> BuildingType.Road ->
  let hash := getHash sin_approx (of_Z x) (of_Z y) in
  exists elements,
    renderTile sin_approx grid tile x y = Ok elements /\
    (buildingType tile = BuildingType.None -> elements = []) /\
    (buildingType tile <> BuildingType.None ->
       (underConstruction tile = true /\
        elements = [ConstructionSite (constructionTimeLeft tile)]) \/
       (underConstruction tile = false /\
        exists cfg, configFor (buildingType tile) = Some cfg /\
          let walker :=
            Ngt hash (decimal 7 10)
            && (BuildingType.eqb (buildingType tile) BuildingType.Commercial
                || BuildingType.eqb (buildingType tile) BuildingType.Park
                || BuildingType.eqb (buildingType tile) BuildingType.Restaurant) in
          elements =
            ProceduralBuilding (buildingType tile) (color cfg) x y
            :: (if walker then [Person (Nmul hash (of_Z 2))] else []))).
Proof.
  intros Hnr hash.
  assert (Hroad : roadContent sin_approx grid tile x y = Ok [])
    by (now apply roadContent_not_road).
  unfold renderTile. rewrite Hroad. cbn [bind app].
  unfold buildingContent. fold hash. cbv zeta.
  destruct (buildingType tile) eqn:Et; try contradiction; cbn [BuildingType.eqb negb andb].
  { eexists; split; [reflexivity|]. split; [reflexivity|]. intros H; contradiction. }
  all: destruct (underConstruction tile); cbn [bind deref].
  all: eexists; (split; [reflexivity|]); (split; [discriminate|]); intros _.
  all: try (left; split; reflexivity).
  all: right; (split; [reflexivity|]); eexists; (split; [reflexivity|]);
    cbn [orb andb]; try rewrite andb_true_r; try rewrite andb_false_r; reflexivity.
Qed.

Lemma building_tile_render_witness :
  exists elements,
    renderTile sin_clamp raggedGrid
      {| buildingType := BuildingType.Park; constructionTimeLeft := None |} 1 1
      = Ok elements /\
    elements = [ProceduralBuilding BuildingType.Park "#4ade80" 1 1].
Proof.
  destruct (building_tile_render sin_clamp raggedGrid
              {| buildingType := BuildingType.Park; constructionTimeLeft := None |} 1 1)
    as (elements & Hok & _ & Hshape); [discriminate|].
  exists elements. split; [exact Hok|].
  destruct (Hshape ltac:(discriminate)) as [(Hu & _)|(_ & cfg & Hcfg & ->)];
    [discriminate|].
  injection Hcfg as <-. vm_compute. reflexivity.
Defined.

(** ** The whole tile layer *)

Lemma sequence_mapi_from {A B : Type} (f : A -> Z -> outcome B) (arr : list A) (i : Z) :
  (forall v k, nth_error arr k = Some v -> exists b, f v (i + Z.of_nat k) = Ok b) ->
  exists bs, sequence (mapi_from f i arr) = Ok bs /\
    List.length bs = List.length arr /\
    forall v k, nth_error arr k = Some v ->
      exists b, nth_error bs k = Some b /\ f v (i + Z.of_nat k) = Ok b.
Proof.
  revert i. induction arr as [|a arr IH]; intros i Hall.
  - exists []. split; [reflexivity|]. split; [reflexivity|].
    intros v [|k]; discriminate.
  - destruct (Hall a 0%nat eq_refl) as (b & Hb).
    replace (i + Z.of_nat 0) with i in Hb by lia.
    destruct (IH (i + 1)) as (bs & Hseq & Hlen & Hnth).
    { intros v k Hk. destruct (Hall v (S k) Hk) as (b' & Hb'). exists b'.
      rewrite <- Hb'. f_equal. lia. }
    exists (b :: bs). cbn [mapi_from sequence]. rewrite Hb, Hseq. cbn [bind].
    split; [reflexivity|]. split; [simpl; lia|].
    intros v [|k] Hk.
    + injection Hk as <-. exists b. split; [reflexivity|].
      now replace (i + Z.of_nat 0) with i by lia.
    + destruct (Hnth v k Hk) as (b' & Hb1 & Hb2). exists b'. split; [exact Hb1|].
      rewrite <- Hb2. f_equal. lia.
Qed.

Lemma elem_nth_error {A : Type} (arr : list A) (i : Z) (a : A) :
  elem arr i = Some a -> nth_error arr (Z.to_nat i) = Some a /\ 0 <= i.
Proof.
  unfold elem. destruct (Z.ltb_spec i 0) as [Hi|Hi]; [discriminate|].
  intros H. split; [exact H|lia].
Qed.

Lemma renderTile_ok (sin_approx : number -> number) (grid : Grid)
    (tile : TileData) (x y : Z) :
  rectangular grid -> exists elements, renderTile sin_approx grid tile x y = Ok elements.
Proof.
  intros R. unfold renderTile.
  destruct (buildingContent_ok sin_approx tile x y) as (building & ->).
  destruct (BuildingType.eqb (buildingType tile) BuildingType.Road) eqn:E.
  - apply BuildingType_eqb_eq in E.
    destruct (roadContent_road sin_approx grid tile x y R E) as (axis & _ & Hroad).
    rewrite Hroad. cbn [bind]. eexists; reflexivity.
  - rewrite roadContent_not_road.
    + cbn [bind]. eexists; reflexivity.
    + intros H. rewrite H in E. discriminate.
Qed.

(** X5.  On a rectangular grid the tile layer never throws, it has the shape of
    the grid, and the entry at row [y], column [x] is the rendering of the
    tile stored there, made with these very coordinates. *)
Theorem renderTiles_total (sin_approx : number -> number) (grid : Grid) :
  rectangular grid ->
  exists tiles,
    renderTiles sin_approx grid = Ok tiles /\
    len tiles = len grid /\
    (forall y row, elem grid y = Some row ->
       exists trow, elem tiles y = Some trow /\ len trow = len row) /\
    (forall x y tile, tileAt grid x y = Some tile ->
       exists trow elements,
         elem tiles y = Some trow /\ elem trow x = Some elements /\
         renderTile sin_approx grid tile x y = Ok elements).
Proof.
  intros R. unfold renderTiles, mapi.
  set (renderRow := fun (row : list TileData) (y : Z) =>
         sequence (mapi_from (fun tile x => renderTile sin_approx grid tile x y) 0 row)).
  assert (Hrow : forall row y,
    exists trow, renderRow row y = Ok trow /\
      List.length trow = List.length row /\
      forall v k, nth_error row k = Some v ->
        exists b, nth_error trow k = Some b /\
          renderTile sin_approx grid v (0 + Z.of_nat k) y = Ok b).
  { intros row y. apply sequence_mapi_from. intros v k _. now apply renderTile_ok. }
  destruct (sequence_mapi_from renderRow grid 0) as (tiles & Hseq & Hlen & Hnth).
  { intros row k _. destruct (Hrow row (0 + Z.of_nat k)) as (trow & Ht & _). now exists trow. }
  exists tiles. split; [exact Hseq|]. split; [unfold len; now rewrite Hlen|].
  assert (Hrows : forall y row, elem grid y = Some row ->
            exists trow, elem tiles y = Some trow /\ renderRow row y = Ok trow).
  { intros y row Hy. destruct (elem_nth_error _ _ _ Hy) as [Hy' Hy0].
    destruct (Hnth row (Z.to_nat y) Hy') as (trow & Ht1 & Ht2).
    replace (0 + Z.of_nat (Z.to_nat y)) with y in Ht2 by lia.
    exists trow. split; [|exact Ht2].
    unfold elem. destruct (Z.ltb_spec y 0); [lia|exact Ht1]. }
  split.
  - intros y row Hy. destruct (Hrows y row Hy) as (trow & Ht & Hr).
    exists trow. split; [exact Ht|].
    destruct (Hrow row y) as (trow' & Hr' & Hl & _).
    assert (trow' = trow) by congruence. subst. unfold len. now rewrite Hl.
  - intros x y tile Htile. unfold tileAt in Htile.
    destruct (elem grid y) as [row|] eqn:Hy; [|discriminate].
    destruct (Hrows y row Hy) as (trow & Ht & Hr).
    destruct (Hrow row y) as (trow' & Hr' & _ & Hcols).
    assert (trow' = trow) by congruence. subst.
    destruct (elem_nth_error _ _ _ Htile) as [Hx' Hx0].
    destruct (Hcols tile (Z.to_nat x) Hx') as (elements & He1 & He2).
    replace (0 + Z.of_nat (Z.to_nat x)) with x in He2 by lia.
    exists trow, elements. split; [exact Ht|]. split; [|exact He2].
    unfold elem. destruct (Z.ltb_spec x 0); [lia|exact He1].
Qed.

Lemma renderTiles_total_witness :
  rectangular crossroads /\
  exists tiles, renderTiles sin_clamp crossroads = Ok tiles /\ len tiles = len crossroads.
Proof.
  split; [exact crossroads_rectangular|].
  destruct (renderTiles_total sin_clamp crossroads crossroads_rectangular)
    as (tiles & Hok & Hlen & _).
  exists tiles. split; assumption.
Defined.

(** Without rectangularity the layer can throw: a road above a missing
    tile. *)
Example renderTiles_ragged (sin_approx : number -> number) :
  renderTiles sin_approx raggedGrid = TypeError.
Proof. reflexivity. Qed.

(** ** The traffic light *)

Lemma newState_range (elapsed : number) :
  newState elapsed = 0 \/ newState elapsed = 1 \/
  newState elapsed = 2 \/ newState elapsed = 3.
Proof.
  unfold newState.
  destruct (Nlt _ (of_Z 5)); [tauto|].
  destruct (Nlt _ (of_Z 6)); [tauto|].
  destruct (Nlt _ (of_Z 11)); tauto.
Qed.

(** X6.  Whatever the elapsed time (NaN and infinities included), the phase is
    one of 0 .. 3, each face shows exactly one lit lamp, and whenever a face
    shows green or yellow the crossing face shows red: the two directions
    are never released together. *)
Theorem traffic_light_safe (elapsed : number) :
  let s := newState elapsed in
  0 <= s <= 3 /\
  List.length (filter lit (faceColors (getNSColor s))) = 1%nat /\
  List.length (filter lit (faceColors (getEWColor s))) = 1%nat /\
  (lit (getNSColor s LightG) = true \/ lit (getNSColor s LightY) = true ->
     getEWColor s LightR = "#ef4444"%string /\
     lit (getEWColor s LightG) = false /\ lit (getEWColor s LightY) = false) /\
  (lit (getEWColor s LightG) = true \/ lit (getEWColor s LightY) = true ->
     getNSColor s LightR = "#ef4444"%string /\
     lit (getNSColor s LightG) = false /\ lit (getNSColor s LightY) = false).
Proof.
  intros s. unfold s.
  destruct (newState_range elapsed) as [-> | [-> | [-> | ->]]];
    (split; [lia|]); (split; [reflexivity|]); (split; [reflexivity|]);
    split; intros [H|H]; try discriminate H; repeat split.
Qed.

(** X7.  After any sequence of frames the state shown equals the phase recorded
    in [lastState], and it is the phase of the most recent frame. *)
Theorem traffic_light_tracks_phase (frames : list number) (elapsed : number) :
  let before := fold_left trafficLightFrame frames trafficLightInit in
  let after := trafficLightFrame before elapsed in
  state before = lastState before /\
  state after = newState elapsed /\ lastState after = newState elapsed.
Proof.
  cbv zeta.
  assert (Hinv : forall s, state s = lastState s ->
            state (fold_left trafficLightFrame frames s)
            = lastState (fold_left trafficLightFrame frames s)).
  { induction frames as [|e frames IH]; intros s Hs; [exact Hs|].
    cbn [fold_left]. apply IH. unfold trafficLightFrame.
    destruct (Z.eqb_spec (newState e) (lastState s)); cbn [negb]; [exact Hs|reflexivity]. }
  specialize (Hinv trafficLightInit eq_refl).
  set (before := fold_left trafficLightFrame frames trafficLightInit) in *.
  split; [exact Hinv|].
  unfold trafficLightFrame.
  destruct (Z.eqb_spec (newState elapsed) (lastState before)) as [E|E]; cbn [negb].
  - split; congruence.
  - now split.
Qed.

(** ** The styles of procedural buildings *)

Lemma Nlt_band (k c : Z) :
  0 <= k <= 99 -> In c [20; 40; 60; 80; 33; 66] ->
  Nlt (of_Z k) (of_Z c) = (k <? c).
Proof.
  intros Hk Hc.
  assert (Hall : forallb (fun i => forallb (fun c =>
             Bool.eqb (Nlt (of_Z (Z.of_nat i)) (of_Z c)) (Z.of_nat i <? c))
             [20; 40; 60; 80; 33; 66]) (seq 0 100) = true)
    by (vm_compute; reflexivity).
  rewrite forallb_forall in Hall.
  specialize (Hall (Z.to_nat k) ltac:(apply in_seq; lia)).
  rewrite forallb_forall in Hall. specialize (Hall c Hc).
  rewrite Z2Nat.id in Hall by lia. now apply Bool.eqb_prop.
Qed.

(** On integer variant indices the float comparisons of the [switch] are
    the integer ones. *)
Lemma buildingStyle_bands (k : Z) :
  0 <= k <= 99 ->
  buildingStyle BuildingType.Residential (of_Z k)
    = Some (if k <? 20 then CozyCottage else if k <? 40 then ModernBoxy
            else if k <? 60 then Townhouse else if k <? 80 then ApartmentComplex
            else LargeEstate) /\
  buildingStyle BuildingType.Commercial (of_Z k)
    = Some (if k <? 20 then HighRise else if k <? 40 then Shop
            else if k <? 60 then CornerStore else if k <? 80 then TwinTowers
            else ShoppingPlaza) /\
  buildingStyle BuildingType.Industrial (of_Z k)
    = Some (if k <? 33 then Factory else if k <? 66 then Warehouse
            else ChemicalPlant).
Proof.
  intros Hk. unfold buildingStyle.
  rewrite !(Nlt_band k) by (try assumption; simpl; tauto).
  repeat split.
Qed.

Lemma smokeStack_industrial (type : BuildingType.t) (v : number) (st : Style) :
  buildingStyle type v = Some st -> hasSmokeStack st = true ->
  type = BuildingType.Industrial.
Proof.
  intros Hst Hsmoke. unfold buildingStyle in Hst.
  destruct type; try reflexivity; try discriminate Hst;
    injection Hst as <-;
    repeat match goal with
           | H : context [if ?c then _ else _] |- _ => destruct c
           end; discriminate Hsmoke.
Qed.

(** X8.  The style of a procedural building.  Where the hash is defined the
    variant index is an integer [k] of 0 .. 99 and the style is chosen by
    fixed bands: houses and shops take one of five styles, twenty indices
    each, factories one of three (33, 33 and 34 indices).  Where the hash is
    NaN the comparisons all fail and the last style is taken.  Only
    industrial buildings ever mount a smoke stack. *)
Theorem procedural_style (sin_approx : number -> number) :
  sin_bounded sin_approx ->
  (forall x y : number, is_finite (hashAngle x y) = true ->
     exists k, 0 <= k <= 99 /\ variant sin_approx x y = of_Z k /\
       buildingStyle BuildingType.Residential (variant sin_approx x y)
         = Some (if k <? 20 then CozyCottage else if k <? 40 then ModernBoxy
                 else if k <? 60 then Townhouse
                 else if k <? 80 then ApartmentComplex else LargeEstate) /\
       buildingStyle BuildingType.Commercial (variant sin_approx x y)
         = Some (if k <? 20 then HighRise else if k <? 40 then Shop
                 else if k <? 60 then CornerStore
                 else if k <? 80 then TwinTowers else ShoppingPlaza) /\
       buildingStyle BuildingType.Industrial (variant sin_approx x y)
         = Some (if k <? 33 then Factory else if k <? 66 then Warehouse
                 else ChemicalPlant)) /\
  (forall x y : number, is_finite (hashAngle x y) = false ->
     buildingStyle BuildingType.Residential (variant sin_approx x y) = Some LargeEstate /\
     buildingStyle BuildingType.Commercial (variant sin_approx x y) = Some ShoppingPlaza /\
     buildingStyle BuildingType.Industrial (variant sin_approx x y) = Some ChemicalPlant) /\
  (forall (x y : number) (type : BuildingType.t),
     (buildingStyle type (variant sin_approx x y) = None <->
        type = BuildingType.Road \/ type = BuildingType.None) /\
     (forall st, buildingStyle type (variant sin_approx x y) = Some st ->
        hasSmokeStack st = true -> type = BuildingType.Industrial)).
Proof.
  intros Hsin. split; [|split].
  - intros x y Hfin.
    pose proof (getHash_below sin_approx x y Hsin Hfin) as Hb.
    destruct (floor_times_below _ Hb) as (_ & _ & (k & Hk & E)).
    exists k. split; [lia|]. unfold variant. rewrite E. split; [reflexivity|].
    apply buildingStyle_bands. lia.
  - intros x y Hinf. unfold variant, getHash.
    destruct (hashAngle x y) as [s|s| |s m e]; try discriminate; repeat split.
  - intros x y type. split.
    + destruct type; simpl; split; try discriminate; try tauto;
        intros [H|H]; discriminate H.
    + intros st. apply smokeStack_industrial.
Qed.

Lemma procedural_style_witness :
  sin_bounded sin_clamp /\
  buildingStyle BuildingType.Residential (variant sin_clamp (of_Z 1) (of_Z 1))
    = Some Townhouse.
Proof.
  split; [exact sin_clamp_bounded|].
  destruct (proj1 (procedural_style sin_clamp sin_clamp_bounded) (of_Z 1) (of_Z 1))
    as (k & Hk & Hv & Hres & _); [reflexivity|].
  rewrite Hres.
  assert (Ek : k = 54).
  { assert (Hof : of_Z k = of_Z 54) by (rewrite <- Hv; vm_compute; reflexivity).
    assert (Hi : integerValue (of_Z k) = Some 54) by (rewrite Hof; reflexivity).
    assert (Hcases : 0 <= k < 10 \/ 10 <= k <= 99) by lia.
    clear Hv Hres Hof. revert Hi.
    assert (Hall : forallb (fun i =>
              match integerValue (of_Z (Z.of_nat i)) with
              | Some j => j =? Z.of_nat i
              | None => false
              end) (seq 0 100) = true) by (vm_compute; reflexivity).
    rewrite forallb_forall in Hall.
    specialize (Hall (Z.to_nat k) ltac:(apply in_seq; lia)).
    rewrite Z2Nat.id in Hall by lia.
    intros Hi. rewrite Hi in Hall. apply Z.eqb_eq in Hall. lia. }
  rewrite Ek. reflexivity.
Defined.

(** ** Exact arithmetic on integers below 2^53 *)

Lemma Zdigits2_shift (m : positive) (k : Z) :
  0 <= k -> Zdigits2 (Zpos m * 2 ^ k) = Zdigits2 (Zpos m) + k.
Proof.
  intros Hk. pose proof (Zdigits2_bounds (Zpos m) ltac:(lia)) as [Hlo Hhi].
  assert (Hd1 : 1 <= Zdigits2 (Zpos m)) by (simpl; lia).
  assert (Hp : 0 < 2 ^ k) by pow2_pos.
  apply Z.le_antisymm.
  - apply Zdigits2_le; [lia|]. split; [lia|].
    rewrite Z.pow_add_r by lia. nia.
  - apply Zdigits2_ge; [|lia].
    replace (Zdigits2 (Zpos m) + k - 1) with (Zdigits2 (Zpos m) - 1 + k) by lia.
    rewrite Z.pow_add_r by lia. nia.
Qed.

(** Normalising a mantissa below 2^53: the canonical mantissa and exponent
    of the value. *)
Lemma binary_round_canonical (s : bool) (R : positive) (e : Z) :
  Zpos R < 2 ^ 53 -> -1074 <= e <= 971 ->
  let f := Z.max (Zdigits2 (Zpos R) + e - 53) (-1074) in
  binary_round prec emax s R e = S754_finite s (Z.to_pos (Zpos R * 2 ^ (e - f))) f.
Proof.
  intros HR He f. unfold binary_round. rewrite fexp_eq.
  change (Zpos (digits2_pos R)) with (Zdigits2 (Zpos R)). fold f.
  assert (HdR : Zdigits2 (Zpos R) <= 53) by (apply Zdigits2_le; lia).
  assert (Hf : f <= e) by (unfold f; lia).
  destruct (shl_align_spec R e f) as (mz & -> & Hmz).
  rewrite Z.min_r in * by lia.
  assert (Hp : 0 < 2 ^ (e - f)) by pow2_pos.
  rewrite binary_round_aux_fits.
  - f_equal. rewrite <- Hmz. reflexivity.
  - rewrite Hmz, Zdigits2_shift by lia. unfold f. lia.
  - lia.
Qed.

(** Rounding a mantissa whose low bits are zero drops them exactly. *)
Lemma binary_round_aux_trailing (s : bool) (R : positive) (k E : Z) :
  0 <= k -> Zpos R < 2 ^ 53 ->
  let f := Z.max (Zdigits2 (Zpos R) + k + E - 53) (-1074) in
  E < f <= E + k -> f <= 971 ->
  binary_round_aux prec emax s (Zpos R * 2 ^ k) E loc_Exact
    = S754_finite s (Z.to_pos (Zpos R * 2 ^ (E + k - f))) f.
Proof.
  intros Hk HR f Hf Hmax.
  assert (Hpk : 0 < 2 ^ k) by pow2_pos.
  assert (HP : 0 < Zpos R * 2 ^ k) by lia.
  assert (HdP : Zdigits2 (Zpos R * 2 ^ k) = Zdigits2 (Zpos R) + k)
    by (apply Zdigits2_shift; lia).
  set (n := f - E).
  assert (Hn : 0 < n <= k) by (unfold n; lia).
  assert (Hsplit : 2 ^ k = 2 ^ (k - n) * 2 ^ n) by pow2_split.
  assert (Hsplit1 : 2 ^ k = 2 * 2 ^ (k - n) * 2 ^ (n - 1)).
  { replace (2 * 2 ^ (k - n)) with (2 ^ (Z.succ (k - n))) by (apply Z.pow_succ_r; lia).
    pow2_split. }
  assert (Hpn : 0 < 2 ^ n) by pow2_pos.
  assert (Hpn1 : 0 < 2 ^ (n - 1)) by pow2_pos.
  assert (Hpkn : 0 < 2 ^ (k - n)) by pow2_pos.
  unfold binary_round_aux, shr_fexp. rewrite fexp_eq, HdP.
  fold f. fold n.
  destruct (shr_spec (shr_record_of_loc (Zpos R * 2 ^ k) loc_Exact) E n)
    as (mrs' & -> & Hm' & Hr'); [cbn [shr_m shr_record_of_loc]; lia|lia|].
  cbn [shr_m shr_record_of_loc] in Hm', Hr'.
  assert (Em' : shr_m mrs' = Zpos R * 2 ^ (k - n)).
  { rewrite Hm', Hsplit, Z.mul_assoc. apply Z.div_mul. lia. }
  assert (Er' : shr_r mrs' = false).
  { rewrite Hr', Hsplit1, !Z.mul_assoc, Z.div_mul by lia.
    replace (Zpos R * 2 * 2 ^ (k - n)) with (2 * (Zpos R * 2 ^ (k - n))) by ring.
    rewrite Z.odd_mul. reflexivity. }
  assert (Erne : round_nearest_even (shr_m mrs') (loc_of_shr_record mrs') = shr_m mrs').
  { destruct mrs' as [m r t]. cbn [shr_r] in Er'. subst r. now destruct t. }
  rewrite Erne, Em'. rewrite fexp_eq.
  destruct (Zpos R * 2 ^ (k - n)) as [|m'|m'] eqn:Epos; try lia.
  assert (Hd' : Zdigits2 (Zpos m') = Zdigits2 (Zpos R) + (k - n)).
  { rewrite <- Epos. apply Zdigits2_shift. lia. }
  rewrite Hd'. rewrite shr_nonpos by (unfold n, f in *; lia).
  cbn [shr_m shr_record_of_loc]. change (emax - prec) with 971.
  replace (E + n) with f by (unfold n; lia).
  destruct (Z.leb_spec f 971); [|lia].
  f_equal. replace (E + k - f) with (k - n) by (unfold n; lia).
  rewrite Epos. reflexivity.
Qed.

(** Normalising [R * 2^k] at exponent [-k] gives the number of the integer
    [R]. *)
Lemma binary_round_scaled (s : bool) (R : positive) (k : Z) :
  0 <= k <= 1074 -> Zpos R < 2 ^ 53 ->
  binary_round prec emax s (Z.to_pos (Zpos R * 2 ^ k)) (- k)
    = binary_round prec emax s R 0.
Proof.
  intros Hk HR.
  assert (Hpk : 0 < 2 ^ k) by pow2_pos.
  assert (HdR : Zdigits2 (Zpos R) <= 53) by (apply Zdigits2_le; lia).
  assert (Hd1 : 1 <= Zdigits2 (Zpos R)) by (simpl; lia).
  rewrite (binary_round_canonical s R 0) by lia. cbv zeta.
  set (f := Z.max (Zdigits2 (Zpos R) + 0 - 53) (-1074)).
  assert (Epos : Zpos (Z.to_pos (Zpos R * 2 ^ k)) = Zpos R * 2 ^ k)
    by (apply Z2Pos.id; lia).
  unfold binary_round. rewrite fexp_eq.
  change (Zpos (digits2_pos (Z.to_pos (Zpos R * 2 ^ k))))
    with (Zdigits2 (Zpos (Z.to_pos (Zpos R * 2 ^ k)))).
  rewrite Epos, Zdigits2_shift by lia.
  replace (Z.max (Zdigits2 (Zpos R) + k + - k - 53) (-1074)) with f by (unfold f; lia).
  destruct (shl_align_spec (Z.to_pos (Zpos R * 2 ^ k)) (- k) f) as (mz & -> & Hmz).
  rewrite Epos in Hmz.
  destruct (Z_le_gt_dec f (- k)) as [Hle|Hgt].
  - rewrite Z.min_r in * by lia.
    rewrite binary_round_aux_fits.
    + f_equal. apply Pos2Z.inj. rewrite Hmz, Z2Pos.id.
      * rewrite <- Z.mul_assoc, <- Z.pow_add_r by lia. f_equal. f_equal. lia.
      * assert (0 < 2 ^ (0 - f)) by (apply Z.pow_pos_nonneg; unfold f; lia). lia.
    + assert (0 < 2 ^ (- k - f)) by pow2_pos.
      rewrite Hmz, <- Z.mul_assoc, <- Z.pow_add_r by lia.
      rewrite Zdigits2_shift by lia. unfold f. lia.
    + lia.
  - rewrite Z.min_l in * by lia. rewrite Z.sub_diag, Z.mul_1_r in Hmz.
    rewrite Hmz.
    rewrite (binary_round_aux_trailing s R k (- k));
      try (cbv zeta; unfold f in *; lia).
    cbv zeta. replace (Z.max (Zdigits2 (Zpos R) + k + - k - 53) (-1074)) with f
      by (unfold f; lia).
    f_equal. f_equal. f_equal. f_equal. lia.
Qed.

(** Normalising an integer multiple of [2^k] at exponent [-k] gives the
    number of the integer. *)
Lemma binary_normalize_scaled (z k : Z) (s0 : bool) :
  0 <= k <= 1074 -> Z.abs z < 2 ^ 53 -> z <> 0 ->
  binary_normalize prec emax (z * 2 ^ k) (- k) s0 = of_Z z.
Proof.
  intros Hk Hz Hz0. assert (Hpk : 0 < 2 ^ k) by pow2_pos.
  unfold of_Z.
  destruct z as [|p|p]; [contradiction| |].
  - destruct (Zpos p * 2 ^ k) as [|q|q] eqn:E; try lia.
    cbn [binary_normalize]. rewrite <- (binary_round_scaled false p k) by lia.
    rewrite E. reflexivity.
  - assert (E : Zneg p * 2 ^ k = - (Zpos p * 2 ^ k)) by lia.
    destruct (Zpos p * 2 ^ k) as [|q|q] eqn:E'; try lia.
    rewrite E. cbn [Z.opp binary_normalize].
    rewrite <- (binary_round_scaled true p k) by lia.
    rewrite E'. reflexivity.
Qed.

(** The representation of a non-zero integer below 2^53. *)
Lemma of_Z_repr (z : Z) :
  Z.abs z < 2 ^ 53 -> z <> 0 ->
  exists m e, of_Z z = S754_finite (z <? 0) m e /\
              -1074 <= e <= 0 /\ Zpos m = Z.abs z * 2 ^ (- e) /\ Zpos m < 2 ^ 53.
Proof.
  intros Hz Hz0. unfold of_Z.
  destruct z as [|p|p]; [contradiction| |]; cbn [binary_normalize].
  - destruct (binary_round_exact false p 0) as (m & e & -> & He & Hm & Hv); [lia|lia|].
    exists m, e. repeat split; try lia. rewrite Hv. reflexivity.
  - destruct (binary_round_exact true p 0) as (m & e & -> & He & Hm & Hv); [lia|lia|].
    exists m, e. repeat split; try lia. rewrite Hv. reflexivity.
Qed.

Lemma integerValue_of_Z (z : Z) : Z.abs z < 2 ^ 53 -> integerValue (of_Z z) = Some z.
Proof.
  intros Hz. destruct (Z.eq_dec z 0) as [->|Hz0]; [reflexivity|].
  destruct (of_Z_repr z Hz Hz0) as (m & e & -> & He & Hm & _).
  unfold integerValue.
  assert (Hp : 0 < 2 ^ (- e)) by pow2_pos.
  destruct (Z.leb_spec 0 e) as [H0|H0].
  - assert (e = 0) by lia. subst e. f_equal.
    change (2 ^ (- 0)) with 1 in Hm. change (2 ^ 0) with 1.
    destruct (Z.ltb_spec z 0); unfold cond_Zopp; lia.
  - rewrite Hm, Z.mod_mul by lia. cbn [Z.eqb]. rewrite Z.div_mul by lia.
    f_equal. destruct (Z.ltb_spec z 0); unfold cond_Zopp; lia.
Qed.

Lemma of_Z_inj (a b : Z) :
  Z.abs a < 2 ^ 53 -> Z.abs b < 2 ^ 53 -> of_Z a = of_Z b -> a = b.
Proof.
  intros Ha Hb E. apply (f_equal integerValue) in E.
  rewrite !integerValue_of_Z in E by assumption. congruence.
Qed.

(** Subtraction of integers is exact as long as operands and result stay
    below 2^53. *)
Lemma Nsub_of_Z (a b : Z) :
  Z.abs a < 2 ^ 53 -> Z.abs b < 2 ^ 53 -> Z.abs (a - b) < 2 ^ 53 ->
  Nsub (of_Z a) (of_Z b) = of_Z (a - b).
Proof.
  intros Ha Hb Hab.
  destruct (Z.eq_dec b 0) as [->|Hb0].
  { rewrite Z.sub_0_r. change (of_Z 0) with (S754_zero false).
    unfold Nsub, SFsub. destruct (of_Z a) as [[|]| | |]; reflexivity. }
  destruct (of_Z_repr b Hb Hb0) as (mb & eb & Eb & Heb & Hmb & Hmb53).
  destruct (Z.eq_dec a 0) as [->|Ha0].
  { change (of_Z 0) with (S754_zero false). rewrite Eb. cbn [Nsub SFsub].
    destruct (of_Z_repr (0 - b)) as (m' & e' & E' & _); [lia|lia|].
    unfold of_Z in *. destruct b as [|p|p]; [contradiction| |];
      cbn [Z.sub Z.opp Z.add binary_normalize] in *;
      cbn [Z.ltb Z.compare] in *.
    - destruct (binary_round_exact false p 0) as (m1 & e1 & H1 & _); [lia|lia|].
      rewrite (binary_round_canonical true p 0) by lia.
      rewrite (binary_round_canonical false p 0) in Eb by lia.
      cbv zeta in *. injection Eb as <- <-. reflexivity.
    - rewrite (binary_round_canonical false p 0) by lia.
      rewrite (binary_round_canonical true p 0) in Eb by lia.
      cbv zeta in *. injection Eb as <- <-. reflexivity. }
  destruct (of_Z_repr a Ha Ha0) as (ma & ea & Ea & Hea & Hma & Hma53).
  rewrite Ea, Eb. unfold Nsub, SFsub.
  set (ez := Z.min ea eb).
  destruct (shl_align_spec ma ea ez) as (A & -> & HA).
  destruct (shl_align_spec mb eb ez) as (B & -> & HB).
  cbn [fst]. rewrite Z.min_r in HA, HB by (unfold ez; lia).
  assert (HA' : Zpos A = Z.abs a * 2 ^ (- ez)).
  { rewrite HA, Hma, <- Z.mul_assoc, <- Z.pow_add_r by (unfold ez; lia).
    f_equal. f_equal. lia. }
  assert (HB' : Zpos B = Z.abs b * 2 ^ (- ez)).
  { rewrite HB, Hmb, <- Z.mul_assoc, <- Z.pow_add_r by (unfold ez; lia).
    f_equal. f_equal. lia. }
  assert (Hz : cond_Zopp (a <? 0) (Zpos A) - cond_Zopp (b <? 0) (Zpos B)
               = (a - b) * 2 ^ (- ez)).
  { rewrite HA', HB'. destruct (Z.ltb_spec a 0), (Z.ltb_spec b 0);
      unfold cond_Zopp; lia. }
  rewrite Hz.
  destruct (Z.eq_dec (a - b) 0) as [E0|E0].
  - rewrite E0. reflexivity.
  - replace ez with (- (- ez)) at 2 by lia.
    apply binary_normalize_scaled; [unfold ez; lia|assumption|assumption].
Qed.

Lemma WORLD_OFFSET_value : WORLD_OFFSET = of_Z 7.
Proof. vm_compute. reflexivity. Qed.

(** ** World coordinates *)

(** X9.  [gridToWorld] is exact on integer tile coordinates: column [x], row [y]
    is placed at [(x - 7, 0, y - 7)] with no rounding, so that the 15 x 15
    grid is centred on the origin, and distinct tiles get distinct
    positions. *)
Theorem gridToWorld_exact (x y x' y' : Z) :
  Z.abs x < 2 ^ 52 -> Z.abs y < 2 ^ 52 ->
  Z.abs x' < 2 ^ 52 -> Z.abs y' < 2 ^ 52 ->
  gridToWorld (of_Z x) (of_Z y) = (of_Z (x - 7), of_Z 0, of_Z (y - 7)) /\
  (gridToWorld (of_Z x) (of_Z y) = gridToWorld (of_Z x') (of_Z y') ->
     x = x' /\ y = y').
Proof.
  intros Hx Hy Hx' Hy'.
  assert (H52 : 2 ^ 53 = 2 * 2 ^ 52) by reflexivity.
  assert (H7 : 7 < 2 ^ 52) by reflexivity.
  assert (E : forall a b, Z.abs a < 2 ^ 52 -> Z.abs b < 2 ^ 52 ->
            gridToWorld (of_Z a) (of_Z b) = (of_Z (a - 7), of_Z 0, of_Z (b - 7))).
  { intros a b Ha Hb. unfold gridToWorld. rewrite WORLD_OFFSET_value.
    rewrite !Nsub_of_Z by lia. reflexivity. }
  split; [now apply E|].
  rewrite !E by assumption. intros H.
  assert (H1 : of_Z (x - 7) = of_Z (x' - 7)) by congruence.
  assert (H2 : of_Z (y - 7) = of_Z (y' - 7)) by congruence.
  apply of_Z_inj in H1; [|lia|lia]. apply of_Z_inj in H2; [|lia|lia]. lia.
Qed.

Lemma gridToWorld_exact_witness :
  gridToWorld (of_Z 0) (of_Z 14) = (of_Z (-7), of_Z 0, of_Z 7) /\
  (gridToWorld (of_Z 0) (of_Z 14) = gridToWorld (of_Z 7) (of_Z 7) -> 0 = 7 /\ 14 = 7).
Proof.
  apply (gridToWorld_exact 0 14 7 7); reflexivity.
Defined.

(** ** The traffic light on whole seconds *)

(** The remainder of non-negative integers below 2^53 is the integer
    remainder. *)
Lemma Nrem_of_Z (k d : Z) :
  0 <= k < 2 ^ 53 -> 0 < d < 2 ^ 53 ->
  Nrem (of_Z k) (of_Z d) = of_Z (k mod d).
Proof.
  intros Hk Hd.
  destruct (of_Z_repr d) as (md & ed & Ed & Hed & Hmd & Hmd53); [lia|lia|].
  destruct (Z.eq_dec k 0) as [->|Hk0].
  { rewrite Z.mod_0_l by lia. rewrite Ed. reflexivity. }
  destruct (of_Z_repr k) as (mk & ek & Ek & Hek & Hmk & Hmk53); [lia|lia|].
  rewrite Ek, Ed.
  destruct (Z.ltb_spec k 0); [lia|]. destruct (Z.ltb_spec d 0); [lia|].
  unfold Nrem. set (ez := Z.min ek ed).
  destruct (shl_align_spec mk ek ez) as (N & -> & HN).
  destruct (shl_align_spec md ed ez) as (D & -> & HD).
  cbn [fst]. rewrite Z.min_r in HN, HD by (unfold ez; lia).
  assert (HN' : Zpos N = k * 2 ^ (- ez)).
  { rewrite HN, Hmk, Z.abs_eq, <- Z.mul_assoc, <- Z.pow_add_r by (unfold ez; lia).
    f_equal. f_equal. lia. }
  assert (HD' : Zpos D = d * 2 ^ (- ez)).
  { rewrite HD, Hmd, Z.abs_eq, <- Z.mul_assoc, <- Z.pow_add_r by (unfold ez; lia).
    f_equal. f_equal. lia. }
  assert (Hp : 0 < 2 ^ (- ez)) by (apply Z.pow_pos_nonneg; unfold ez; lia).
  rewrite Z.rem_mod_nonneg by lia.
  rewrite HN', HD', Z.mul_mod_distr_r by lia.
  cbn [cond_Zopp].
  pose proof (Z.mod_pos_bound k d ltac:(lia)) as Hr.
  destruct (Z.eq_dec (k mod d) 0) as [E0|E0].
  - rewrite E0. reflexivity.
  - replace ez with (- (- ez)) at 2 by lia.
    apply binary_normalize_scaled; [unfold ez; lia|lia|assumption].
Qed.

(** X10.  At a whole number [k] of elapsed seconds the phase follows a cycle of
    twelve seconds: five seconds of north-south green, one of yellow, five
    of east-west green, one of yellow; in particular the phase repeats
    every twelve seconds. *)
Theorem traffic_light_cycle (k : Z) :
  0 <= k -> k + 12 < 2 ^ 53 ->
  let t := k mod 12 in
  newState (of_Z k) =
    (if t <? 5 then 0 else if t <? 6 then 1 else if t <? 11 then 2 else 3) /\
  newState (of_Z (k + 12)) = newState (of_Z k).
Proof.
  intros Hk0 Hk53 t.
  assert (Hphase : forall j, 0 <= j < 2 ^ 53 ->
            newState (of_Z j) =
              (if j mod 12 <? 5 then 0 else if j mod 12 <? 6 then 1
               else if j mod 12 <? 11 then 2 else 3)).
  { intros j Hj. unfold newState. cbv zeta.
    rewrite Nrem_of_Z by (try assumption; split; reflexivity).
    pose proof (Z.mod_pos_bound j 12 ltac:(lia)) as Hr.
    assert (Hall : forallb (fun i =>
              Bool.eqb (Nlt (of_Z (Z.of_nat i)) (of_Z 5)) (Z.of_nat i <? 5)
              && Bool.eqb (Nlt (of_Z (Z.of_nat i)) (of_Z 6)) (Z.of_nat i <? 6)
              && Bool.eqb (Nlt (of_Z (Z.of_nat i)) (of_Z 11)) (Z.of_nat i <? 11))
              (seq 0 12) = true) by (vm_compute; reflexivity).
    rewrite forallb_forall in Hall.
    specialize (Hall (Z.to_nat (j mod 12)) ltac:(apply in_seq; lia)).
    rewrite Z2Nat.id in Hall by lia.
    apply andb_true_iff in Hall. destruct Hall as [Hall H11].
    apply andb_true_iff in Hall. destruct Hall as [H5 H6].
    apply Bool.eqb_prop in H5, H6, H11. rewrite H5, H6, H11. reflexivity. }
  split.
  - apply Hphase. lia.
  - rewrite !Hphase by lia.
    replace ((k + 12) mod 12) with (k mod 12); [reflexivity|].
    replace (k + 12) with (k + 1 * 12) by lia. now rewrite Z.mod_add by lia.
Qed.

Lemma traffic_light_cycle_witness :
  newState (of_Z 19) = 2 /\ newState (of_Z (19 + 12)) = newState (of_Z 19).
Proof.
  destruct (traffic_light_cycle 19) as [H1 H2]; [lia|reflexivity|].
  split; [exact H1|exact H2].
Defined.

(** ** Pedestrians *)

Lemma Nrem_canonical (sn sd : bool) (mn md : positive) (en ed : Z) :
  Zpos mn < 2 ^ 53 -> -1074 <= en ->
  Zpos md < 2 ^ 53 -> -1074 <= ed <= 971 ->
  match Nrem (S754_finite sn mn en) (S754_finite sd md ed) with
  | S754_finite _ m e => Z.max (Zdigits2 (Zpos m) + e - 53) (-1074) = e
  | _ => True
  end.
Proof.
  intros Hmn Hen Hmd Hed. unfold Nrem.
  set (ez := Z.min en ed).
  destruct (shl_align_spec mn en ez) as (N & -> & HN).
  destruct (shl_align_spec md ed ez) as (D & -> & HD).
  cbn [fst]. rewrite Z.min_r in HN by (unfold ez; lia).
  rewrite Z.min_r in HD by (unfold ez; lia).
  rewrite Z.rem_mod_nonneg by lia.
  pose proof (Z.mod_pos_bound (Zpos N) (Zpos D) ltac:(lia)) as [HR0 HRD].
  assert (HRN : Zpos N mod Zpos D <= Zpos N) by (apply Z.mod_le; lia).
  destruct (Zpos N mod Zpos D) as [|R|R] eqn:ER; [now destruct sn| |lia].
  assert (HR53 : Zpos R < 2 ^ 53).
  { destruct (Z.min_spec en ed) as [[_ Hz]|[_ Hz]]; fold ez in Hz.
    - rewrite Hz, Z.sub_diag, Z.mul_1_r in HN. lia.
    - rewrite Hz, Z.sub_diag, Z.mul_1_r in HD. lia. }
  assert (Hez : -1074 <= ez <= 971) by (unfold ez; lia).
  assert (Hnorm : binary_normalize prec emax (cond_Zopp sn (Zpos R)) ez sn
                  = binary_round prec emax sn R ez) by (now destruct sn).
  rewrite Hnorm, (binary_round_canonical sn R ez HR53 Hez). cbv zeta.
  set (f := Z.max (Zdigits2 (Zpos R) + ez - 53) (-1074)).
  assert (HdR : Zdigits2 (Zpos R) <= 53) by (apply Zdigits2_le; lia).
  assert (Hp : 0 < 2 ^ (ez - f)) by (apply Z.pow_pos_nonneg; unfold f; lia).
  rewrite Z2Pos.id by lia. rewrite Zdigits2_shift by (unfold f; lia).
  unfold f. lia.
Qed.

(** The hash is NaN, or a number below 1 in canonical form. *)
Lemma getHash_canonical (sin_approx : number -> number) (x y : number) :
  match getHash sin_approx x y with
  | S754_finite _ m e => Z.max (Zdigits2 (Zpos m) + e - 53) (-1074) = e
  | _ => True
  end.
Proof.
  unfold getHash. rewrite hash_factor, of_Z_1.
  pose proof (Nmul_shape (Math_sin sin_approx (hashAngle x y)) 6014128671489104 (-37))
    as Hshape.
  destruct (Nmul (Math_sin sin_approx (hashAngle x y))
                 (S754_finite false 6014128671489104 (-37))) as [s|s| |s m e];
    try exact I.
  destruct Hshape as [Hm He]. cbn [Math_abs SFabs].
  apply Nrem_canonical; lia.
Qed.

Lemma lt_02_not_gt_05 (h : number) :
  Nlt h (decimal 2 10) = true -> Ngt h (decimal 5 10) = false.
Proof.
  assert (E5 : decimal 5 10 = S754_finite false 4503599627370496 (-53))
    by (vm_compute; reflexivity).
  assert (E2 : decimal 2 10 = S754_finite false 7205759403792794 (-55))
    by (vm_compute; reflexivity).
  rewrite E5, E2. unfold Ngt, Nlt, SFltb, SFcompare.
  destruct h as [[|]|[|]| |[|] m e]; try discriminate; try reflexivity.
  destruct (Z.compare_spec e (-55)) as [He|He|He]; try discriminate.
  - subst e. intros _. reflexivity.
  - intros _. destruct (Z.compare_spec (-53) e) as [He'|He'|He']; first [lia|reflexivity].
Qed.

(** A canonical number of [[0, 1)] above 0.7 has exponent -53 and a full
    mantissa, and doubling it is exact. *)
Lemma double_above_07 (h : number) :
  below 1 h ->
  match h with
  | S754_finite _ m e => Z.max (Zdigits2 (Zpos m) + e - 53) (-1074) = e
  | _ => True
  end ->
  Ngt h (decimal 7 10) = true ->
  exists m, Nmul h (of_Z 2) = S754_finite false m (-52).
Proof.
  assert (E7 : decimal 7 10 = S754_finite false 6305039478318694 (-53))
    by (vm_compute; reflexivity).
  assert (E2 : of_Z 2 = S754_finite false 4503599627370496 (-51)) by reflexivity.
  rewrite E7, E2. intros Hb Hc Hgt.
  destruct h as [[|]|[|]| |[|] m e]; cbn [below] in Hb; try contradiction;
    try discriminate Hgt.
  destruct Hb as (Hm & He & Hv).
  destruct (below_exponent_neg m e He Hv) as [Heneg Hmlt].
  assert (Hd1 : 1 <= Zdigits2 (Zpos m)) by (simpl; lia).
  assert (Hdle : Zdigits2 (Zpos m) <= - e) by (apply Zdigits2_le; lia).
  assert (Hege : -53 <= e).
  { unfold Ngt, SFltb, SFcompare in Hgt.
    destruct (Z.compare_spec (-53) e); [lia|lia|discriminate]. }
  assert (Ee : e = -53) by lia. subst e.
  assert (Ed : Zdigits2 (Zpos m) = 53) by lia.
  exists m. unfold Nmul, SFmul. cbn [xorb].
  rewrite Pos2Z.inj_mul. change (Zpos 4503599627370496) with (2 ^ 52).
  change (-53 + -51) with (-104).
  pose proof (binary_round_aux_trailing false m 52 (-104)) as Hround.
  cbv zeta in Hround. rewrite Ed in Hround.
  change (Z.max (53 + 52 + -104 - 53) (-1074)) with (-52) in Hround.
  change (-104 + 52 - -52) with 0 in Hround.
  rewrite Z.pow_0_r, Z.mul_1_r in Hround.
  rewrite Hround by lia. reflexivity.
Qed.

Lemma roadContent_person (sin_approx : number -> number) (grid : Grid)
    (tile : TileData) (x y : Z) (elements : list Element) (seed : number) :
  roadContent sin_approx grid tile x y = Ok elements ->
  In (Person seed) elements ->
  buildingType tile = BuildingType.Road /\
  seed = getHash sin_approx (of_Z x) (of_Z y) /\
  Nlt seed (decimal 2 10) = true.
Proof.
  unfold roadContent. set (hash := getHash sin_approx (of_Z x) (of_Z y)).
  destruct (isIntersection grid tile x y) as [crossing|]; [|discriminate].
  cbn [bind].
  destruct (BuildingType.eqb (buildingType tile) BuildingType.Road) eqn:Eroad;
    [|intros H; injection H as <-; intros []].
  apply BuildingType_eqb_eq in Eroad.
  assert (Htail : forall front,
            (forall e, In e front -> e <> Person seed) ->
            In (Person seed)
               (front ++ (if Nlt hash (decimal 2 10) then [Person hash] else [])) ->
            seed = hash /\ Nlt seed (decimal 2 10) = true).
  { intros front Hfront Hin. apply in_app_or in Hin. destruct Hin as [Hin|Hin].
    - exfalso. exact (Hfront _ Hin eq_refl).
    - destruct (Nlt hash (decimal 2 10)) eqn:Elt; [|destruct Hin].
      destruct Hin as [Hin|[]]. injection Hin as <-. now split. }
  destruct crossing.
  - cbn [bind]. intros H; injection H as <-. intros Hin. split; [exact Eroad|].
    apply (Htail [TrafficLight]); [|exact Hin].
    intros e [<-|[]]; discriminate.
  - destruct (Ngt hash (decimal 4 10)).
    + destruct (getRoadAxis grid x y) as [axis|]; [|discriminate].
      cbn [bind]. intros H; injection H as <-. intros Hin. split; [exact Eroad|].
      apply (Htail [Car axis hash (elemAt carColors (carColorIndex hash))]);
        [|exact Hin].
      intros e [<-|[]]; discriminate.
    + cbn [bind]. intros H; injection H as <-. intros Hin. split; [exact Eroad|].
      apply (Htail []); [|exact Hin]. intros e [].
Qed.

Lemma buildingContent_person (sin_approx : number -> number)
    (tile : TileData) (x y : Z) (elements : list Element) (seed : number) :
  buildingContent sin_approx tile x y = Ok elements ->
  In (Person seed) elements ->
  (buildingType tile = BuildingType.Commercial \/
   buildingType tile = BuildingType.Park \/
   buildingType tile = BuildingType.Restaurant) /\
  underConstruction tile = false /\
  seed = Nmul (getHash sin_approx (of_Z x) (of_Z y)) (of_Z 2) /\
  Ngt (getHash sin_approx (of_Z x) (of_Z y)) (decimal 7 10) = true.
Proof.
  unfold buildingContent. set (hash := getHash sin_approx (of_Z x) (of_Z y)).
  cbv zeta.
  destruct (negb (BuildingType.eqb (buildingType tile) BuildingType.None)
            && negb (BuildingType.eqb (buildingType tile) BuildingType.Road));
    [|intros H; injection H as <-; intros []].
  destruct (underConstruction tile).
  { intros H; injection H as <-. intros [H|[]]; discriminate. }
  destruct (configFor (buildingType tile)) as [cfg|]; [|discriminate].
  cbn [deref bind]. intros H; injection H as <-.
  intros [H|Hin]; [discriminate|].
  destruct (Ngt hash (decimal 7 10)) eqn:Egt; cbn [andb] in Hin; [|destruct Hin].
  destruct (buildingType tile); cbn [BuildingType.eqb orb] in Hin;
    try (destruct Hin; fail);
    destruct Hin as [Hin|[]]; injection Hin as <-; auto.
Qed.

(** X11.  The two call sites of [Person] dress their pedestrians differently.  A
    pedestrian on a road tile is seeded with the hash, which is below 0.2
    there, and wears the blue shirt; a pedestrian beside a shop, park or
    restaurant is seeded with twice the hash, which exceeds 0.7 there, and
    wears the red shirt.  No other tile shows a pedestrian. *)
Theorem pedestrian_shirts (sin_approx : number -> number) (grid : Grid)
    (tile : TileData) (x y : Z) (elements : list Element) (seed : number) :
  renderTile sin_approx grid tile x y = Ok elements ->
  In (Person seed) elements ->
  let hash := getHash sin_approx (of_Z x) (of_Z y) in
  (buildingType tile = BuildingType.Road /\ seed = hash /\
   Nlt hash (decimal 2 10) = true /\ shirtColor seed = "#60a5fa"%string) \/
  ((buildingType tile = BuildingType.Commercial \/
    buildingType tile = BuildingType.Park \/
    buildingType tile = BuildingType.Restaurant) /\
   underConstruction tile = false /\
   seed = Nmul hash (of_Z 2) /\
   Ngt hash (decimal 7 10) = true /\ shirtColor seed = "#f87171"%string).
Proof.
  intros Hok Hin hash. unfold renderTile in Hok.
  destruct (roadContent sin_approx grid tile x y) as [road|] eqn:Hroad;
    [|discriminate].
  destruct (buildingContent sin_approx tile x y) as [building|] eqn:Hbuilding;
    [|discriminate].
  cbn [bind] in Hok. injection Hok as <-.
  apply in_app_or in Hin. destruct Hin as [Hin|Hin].
  - left. destruct (roadContent_person _ _ _ _ _ _ _ Hroad Hin) as (Ht & Hs & Hlt).
    fold hash in Hs. subst seed. repeat split; try assumption.
    unfold shirtColor. now rewrite (lt_02_not_gt_05 hash Hlt).
  - right.
    destruct (buildingContent_person _ _ _ _ _ _ Hbuilding Hin) as (Ht & Hu & Hs & Hgt).
    fold hash in Hs, Hgt. repeat split; try assumption.
    assert (Hb : below 1 hash).
    { destruct (getHash_below_or_NaN sin_approx (of_Z x) (of_Z y)) as [Hn|Hb];
        [|exact Hb].
      exfalso. exact (Ngt_not_NaN _ _ Hgt Hn). }
    destruct (double_above_07 hash Hb (getHash_canonical sin_approx (of_Z x) (of_Z y)) Hgt)
      as (m & Em).
    rewrite Hs, Em. reflexivity.
Qed.

Lemma pedestrian_shirts_witness :
  renderTile sin_clamp crossroads roadTile 0 0 = Ok [Person (of_Z 0)] /\
  shirtColor (of_Z 0) = "#60a5fa"%string.
Proof.
  assert (Hok : renderTile sin_clamp crossroads roadTile 0 0 = Ok [Person (of_Z 0)])
    by (vm_compute; reflexivity).
  split; [exact Hok|].
  destruct (pedestrian_shirts sin_clamp crossroads roadTile 0 0 _ (of_Z 0) Hok)
    as [(_ & _ & _ & Hs)|(Ht & _)].
  - now left.
  - exact Hs.
  - destruct Ht as [Ht|[Ht|Ht]]; discriminate Ht.
Defined.

(** ** The catalog as a lookup table *)

Lemma lookup_In (table : list (BuildingType.t * BuildingConfig))
    (k : BuildingType.t) (cfg : BuildingConfig) :
  NoDup (map fst table) ->
  (In (k, cfg) table <-> lookup k table = Some cfg).
Proof.
  induction table as [|[k' cfg'] table IH]; intros Hnd.
  - split; [intros []|discriminate].
  - cbn [map fst] in Hnd. apply NoDup_cons_iff in Hnd. destruct Hnd as [Hnotin Hnd'].
    cbn [lookup In].
    destruct (BuildingType.eqb k k') eqn:E.
    + apply BuildingType_eqb_eq in E. subst k'. split.
      * intros [H|H]; [congruence|].
        exfalso. apply Hnotin. apply in_map_iff. now exists (k, cfg).
      * intros H; injection H as <-. now left.
    + rewrite <- (IH Hnd'). split; [|tauto].
      intros [H|H]; [|exact H]. injection H as Hk _. subst k'.
      assert (BuildingType.eqb k k = true) by (now destruct k). congruence.
Qed.

(** X12.  No key of [BUILDINGS] is declared twice, so no entry is shadowed: the
    entries of the table are exactly what [BUILDINGS[t]] returns.  Every
    entry carries its own key as [type]; costs and population gains are
    never negative; only bulldozing is free, only the hospital costs money
    to run, and only the airport costs more than the initial money. *)
Theorem catalog_lookup :
  NoDup (map fst BUILDINGS) /\
  (forall k cfg, In (k, cfg) BUILDINGS <-> configFor k = Some cfg) /\
  (forall k cfg, configFor k = Some cfg ->
     type cfg = k /\ 0 <= cost cfg /\ 0 <= popGen cfg /\
     (cost cfg = 0 <-> k = BuildingType.None) /\
     (incomeGen cfg < 0 <-> k = BuildingType.Hospital) /\
     (INITIAL_MONEY < cost cfg <-> k = BuildingType.Airport)).
Proof.
  assert (Hnd : NoDup (map fst BUILDINGS)).
  { cbn [map fst BUILDINGS].
    repeat (apply NoDup_cons; [cbn [In]; intuition discriminate|]).
    apply NoDup_nil. }
  split; [exact Hnd|]. split.
  - intros k cfg. unfold configFor. now apply lookup_In.
  - intros k cfg Hcfg. unfold INITIAL_MONEY.
    destruct k; injection Hcfg as <-; cbn [type cost popGen incomeGen];
      (split; [reflexivity|]); (split; [lia|]); (split; [lia|]);
      repeat split; intros H; first [reflexivity | discriminate H | lia].
Qed.
